(** * vizseq: the page view (vizseq/_view/data_view.py)

    A shallow embedding of the index pipeline of [VizSeqDataPageView.get]
    (query, tag filter, sorting, pagination), of the paginator
    [_get_start_end_idx] and of the slicing helper [_select], together with
    the properties the specification states about them; then of
    [VizSeqDataPageView.get_enum], of the steps of [get] that slice, score
    and render the page, and of the whole of [get] with the arguments of
    its signature, with further properties read off the code.

    Python integers are unbounded, so they are [Z]; Python lists are [list];
    a [dict] keyed by model name is a [gmap string]; exceptions are an
    explicit error result. *)

From Stdlib Require Import ZArith Lia.
From stdpp Require Import base option list gmap strings.

Local Open Scope Z_scope.

(** ** Python values: exceptions, indexing, slicing *)

(** The exceptions the modelled code can raise: a failed [assert], a list
    index out of range, a missing [dict] key, iterating over [None], and
    the failure of the scorer registry on an id it does not know. *)
Inductive PyError : Type :=
  | AssertionError
  | IndexError
  | KeyError
  | TypeError
  | UnknownMetric.

Inductive Result (A : Type) : Type :=
  | Ok (a : A)
  | Raise (e : PyError).
Arguments Ok {A} a.
Arguments Raise {A} e.

#[global] Instance Result_ret : MRet Result := @Ok.
#[global] Instance Result_bind : MBind Result :=
  fun A B f r => match r with Ok a => f a | Raise e => Raise e end.
#[global] Instance Result_fmap : FMap Result :=
  fun A B f r => match r with Ok a => Ok (f a) | Raise e => Raise e end.

(** [assert b] *)
Definition py_assert (b : bool) : Result unit :=
  if b then Ok tt else Raise AssertionError.

(** [len(l)] as a Python integer. *)
Definition py_len {A} (l : list A) : Z := Z.of_nat (length l).

(** [l[i]]: a negative index counts from the end; outside
    [-len(l) .. len(l) - 1] the access raises [IndexError]. *)
Definition py_getitem {A} (l : list A) (i : Z) : Result A :=
  let j := if i <? 0 then i + py_len l else i in
  if (0 <=? j) && (j <? py_len l)
  then match l !! Z.to_nat j with Some x => Ok x | None => Raise IndexError end
  else Raise IndexError.

(** A slice bound adjusted to a list of length [n], as [slice.indices] does
    for step 1: a negative bound counts from the end, and both ends are
    clamped into [0 .. n]. *)
Definition adjust_bound (n i : Z) : Z :=
  if i <? 0 then Z.max (i + n) 0 else Z.min i n.

(** [l[start:stop]] *)
Definition py_slice {A} (l : list A) (start stop : Z) : list A :=
  let a := adjust_bound (py_len l) start in
  let b := adjust_bound (py_len l) stop in
  take (Z.to_nat (b - a)) (drop (Z.to_nat a) l).

(** [d[k]] on a dict. *)
Definition py_dict_getitem {V} (d : gmap string V) (k : string) : Result V :=
  match d !! k with Some v => Ok v | None => Raise KeyError end.

(** [list(range(n))] *)
Definition py_range (n : nat) : list Z := Z.of_nat <$> seq 0 n.

(** Truthiness of a value used as a condition ([if flag]). *)
Class Truthy (A : Type) := truthy : A -> bool.
#[global] Instance bool_truthy : Truthy bool := fun b => b.
#[global] Instance string_truthy : Truthy string :=
  fun s => match s with EmptyString => false | String _ _ => true end.
#[global] Instance Z_truthy : Truthy Z := fun z => negb (z =? 0).

(** ** Module constants *)

Definition DEFAULT_PAGE_SIZE : Z := 10.
Definition DEFAULT_PAGE_NO : Z := 1.
Definition MAX_PAGE_SZ : Z := 100.

(** ** The paginator *)

(** [_get_start_end_idx(n_items, page_sz, page_no)]; both indices are
    inclusive. *)
Definition _get_start_end_idx (n_items page_sz page_no : Z) : Result (Z * Z) :=
  _ ← py_assert ((0 <? page_sz) && (0 <? page_no));
  let start_idx := Z.min (page_sz * (page_no - 1)) (n_items - 1) in
  let end_idx := Z.max (page_sz * page_no - 1) start_idx in
  Ok (start_idx, end_idx).

(** ** The slicing helper *)

(** [_select(a_list, indices)]:
    [[a_list[i] for i in indices if i < len(a_list)]]. *)
Fixpoint _select {A} (a_list : list A) (indices : list Z) : Result (list A) :=
  match indices with
  | [] => Ok []
  | i :: rest =>
      if i <? py_len a_list
      then x ← py_getitem a_list i;
           xs ← _select a_list rest;
           Ok (x :: xs)
      else _select a_list rest
  end.

(** ** Data sources *)

(** Modelled from the spec: [VizSeqDataSources] (vizseq/_data) is declared
    outside this file.  A data source is a bundle of parallel text channels;
    the page view reads its length [len(src)], [has_text], the channels
    [text], the primary channel [main_text] and the channel names
    [text_names]. *)
Record VizSeqDataSources : Type := {
  len : nat;
  has_text : bool;
  text : list (list string);
  main_text : list string;
  text_names : list string;
}.

(** Modelled from the spec: the members of the enum [VizSeqSortingType]
    (vizseq/_view/data_sorters), listed in the request parameters as
    none/random/ref-length/ref-alphabetical/src-length/src-alphabetical/
    metric/metric-diff.  The seven members the page view names keep their
    names; [none] is the member that asks for no reordering. *)
Inductive VizSeqSortingType : Type :=
  | none
  | random
  | ref_len
  | ref_alphabetical
  | src_len
  | src_alphabetical
  | metric
  | metric_diff.

#[global] Instance VizSeqSortingType_eq_dec : EqDecision VizSeqSortingType.
Proof. solve_decision. Defined.

(** Iterating over the enum class yields its members in definition order. *)
Definition VizSeqSortingType_members : list VizSeqSortingType :=
  [none; random; ref_len; ref_alphabetical; src_len; src_alphabetical;
   metric; metric_diff].

(** The arguments the index pipeline reads, for a call whose mask
    [is_tag_selected] is a list (the default is [[]]); its entries are only
    ever tested for truthiness.  The arguments as the signature has them,
    with a mask that may be [None], are [GetArgs] below. *)
Record Request (Flag : Type) : Type := {
  src : VizSeqDataSources;
  ref : VizSeqDataSources;
  hypo : VizSeqDataSources;
  page_sz : Z;
  page_no : Z;
  query : string;
  sorting : Z;
  sorting_metric : string;
  is_tag_selected : list Flag;
  filter_by_tags : bool;
}.
Arguments src {Flag} _.
Arguments ref {Flag} _.
Arguments hypo {Flag} _.
Arguments page_sz {Flag} _.
Arguments page_no {Flag} _.
Arguments query {Flag} _.
Arguments sorting {Flag} _.
Arguments sorting_metric {Flag} _.
Arguments is_tag_selected {Flag} _.
Arguments filter_by_tags {Flag} _.

(** The fields of [VizSeqPageData] that the index pipeline determines: the
    page's index list and the three counts.  The remaining fields are the
    slices, scores and renderings that the collaborators compute from
    [cur_idx] afterwards. *)
Record VizSeqPageData : Type := {
  cur_idx : list Z;
  n_cur_samples : Z;
  n_samples : Z;
  total_examples : Z;
}.

(** ** Collaborators *)

Section Collaborators.
(** Sentence scores are floats and the random sorter draws from the
    process-wide generator: both are kept abstract. *)
Context {Score Rng : Type}.

(** [get_scorer(id)(corpus_level=False, sent_level=True).score(hypo, refs).sent_scores] *)
Definition Scorer : Type := list string -> list (list string) -> list Score.

(** The capabilities the page view consumes and does not define: the text
    filter, the sorters, the scorer registry and the values of the enum
    members. *)
Record Env : Type := {
  VizSeqFilter_filter : list (list string) -> string -> list Z;
  VizSeqRandomSorter_sort : list Z -> Rng -> list Z * Rng;
  VizSeqByLenSorter_sort : list string -> list Z -> list Z;
  VizSeqByStrOrderSorter_sort : list string -> list Z -> list Z;
  VizSeqByMetricSorter_sort : list (gmap string Score) -> list Z -> list Z;
  VizSeqByMetricDiffSorter_sort : list (gmap string Score) -> list Z -> list Z;
  get_scorer_ids : list string;
  get_scorer : string -> Scorer;
  value : VizSeqSortingType -> Z;
}.

(** One sentence-level scoring run made to establish a sort order: which
    metric scored which model. *)
Record ScoreCall : Type := { sc_metric : string; sc_model : string }.

(** What the index pipeline can change besides its result: the state of the
    random generator, and the scoring runs the sort has triggered so far. *)
Record World : Type := { rng : Rng; score_log : list ScoreCall }.

(** Computations that may raise and that read and write the [World]. *)
Definition M (A : Type) : Type := World -> Result (A * World).

Definition M_ret {A} (a : A) : M A := fun w => Ok (a, w).

Definition M_bind {A B} (m : M A) (k : A -> M B) : M B :=
  fun w => match m w with Ok (a, w') => k a w' | Raise e => Raise e end.

Definition M_lift {A} (r : Result A) : M A :=
  fun w => match r with Ok a => Ok (a, w) | Raise e => Raise e end.

End Collaborators.
Arguments Env : clear implicits.
Arguments World : clear implicits.
Arguments M : clear implicits.
Arguments Scorer : clear implicits.

Declare Scope py_scope.
Delimit Scope py_scope with py.
Notation "'let!' x ':=' m 'in' k" := (M_bind m (fun x => k))
  (at level 10, x pattern, m at level 100, k at level 200) : py_scope.

(** ** The page view *)

Section PageView.
Context {Score Rng Flag : Type} `{!Truthy Flag}.
Variable E : Env Score Rng.

#[local] Abbreviation M := (M Rng).

(** Lines 84-88, the query: the text filter runs on the source channels
    when the source has text, else on the reference channels when the
    reference has text; otherwise every corpus index is a candidate. *)
Definition get_query (src ref : VizSeqDataSources) (query : string) : list Z :=
  if has_text src then VizSeqFilter_filter E (text src) query
  else if has_text ref then VizSeqFilter_filter E (text ref) query
  else py_range (len src).

(** [[idx for idx, flag in zip(cur_idx, is_tag_selected) if flag]] *)
Fixpoint select_tagged (cur_idx : list Z) (is_tag_selected : list Flag) : list Z :=
  match cur_idx, is_tag_selected with
  | idx :: cur_idx', flag :: flags =>
      if truthy flag then idx :: select_tagged cur_idx' flags
      else select_tagged cur_idx' flags
  | _, _ => []
  end.

(** Lines 90-92, the tag filter. *)
Definition get_filter_by_tags
    (filter_by_tags : bool) (is_tag_selected : list Flag) (cur_idx : list Z)
  : list Z :=
  if filter_by_tags then select_tagged cur_idx is_tag_selected else cur_idx.

(** Line 97: [{e.value: e for e in VizSeqSortingType}.get(sorting, None)].
    A later member with the same value replaces an earlier one. *)
Definition sorting_of_value (sorting : Z) : option VizSeqSortingType :=
  last (filter (fun e => value E e = sorting) VizSeqSortingType_members).

(** One scoring run of the sort: it is recorded in the [World]. *)
Definition score_for_sort
    (sorting_metric m : string) (hyp : list string) (refs : list (list string))
  : M (list Score) :=
  fun w =>
    Ok (get_scorer E sorting_metric hyp refs,
        {| rng := rng w;
           score_log := score_log w ++ [{| sc_metric := sorting_metric; sc_model := m |}] |}).

(** Lines 114-119: the dict comprehension over [zip(models, hypo.text)];
    every pair is scored, and a repeated model name keeps its last scores. *)
Fixpoint score_models
    (sorting_metric : string) (pairs : list (string * list string))
    (cur_idx : list Z) (_cur_ref : list (list string))
    (scores : gmap string (list Score)) : M (gmap string (list Score)) :=
  match pairs with
  | [] => M_ret scores
  | (m, t) :: pairs' =>
      (let! hyp := M_lift (_select t cur_idx) in
       let! sent_scores := score_for_sort sorting_metric m hyp _cur_ref in
       score_models sorting_metric pairs' cur_idx _cur_ref (<[m := sent_scores]> scores))%py
  end.

(** [{m: scores[m][i] for m in models}] *)
Fixpoint score_row
    (scores : gmap string (list Score)) (models : list string) (i : Z)
    (row : gmap string Score) : Result (gmap string Score) :=
  match models with
  | [] => Ok row
  | m :: models' =>
      s ← py_dict_getitem scores m;
      x ← py_getitem s i;
      score_row scores models' i (<[m := x]> row)
  end.

(** Lines 112-127: the metric sorts.  An unregistered [sorting_metric]
    leaves the candidates as they are. *)
Definition sort_by_metric
    (sorting : VizSeqSortingType) (sorting_metric : string)
    (ref hypo : VizSeqDataSources) (cur_idx : list Z) : M (list Z) :=
  let models := text_names hypo in
  if bool_decide (sorting_metric ∈ get_scorer_ids E) then
    (let! _cur_ref := M_lift (mapM (fun t => _select t cur_idx) (text ref)) in
     let! scores :=
       score_models sorting_metric (zip models (text hypo)) cur_idx _cur_ref ∅ in
     let! scores :=
       M_lift (mapM (fun i => score_row scores models i ∅)
                    (py_range (length cur_idx))) in
     match sorting with
     | metric => M_ret (VizSeqByMetricSorter_sort E scores cur_idx)
     | metric_diff => M_ret (VizSeqByMetricDiffSorter_sort E scores cur_idx)
     | _ => M_ret cur_idx
     end)%py
  else M_ret cur_idx.

(** Lines 99-127, the sorting dispatch. *)
Definition get_sorting
    (sorting : VizSeqSortingType) (sorting_metric : string)
    (src ref hypo : VizSeqDataSources) (cur_idx : list Z) : M (list Z) :=
  match sorting with
  | random =>
      fun w =>
        let '(sorted, g) := VizSeqRandomSorter_sort E cur_idx (rng w) in
        Ok (sorted, {| rng := g; score_log := score_log w |})
  | ref_len => M_ret (VizSeqByLenSorter_sort E (main_text ref) cur_idx)
  | ref_alphabetical => M_ret (VizSeqByStrOrderSorter_sort E (main_text ref) cur_idx)
  | src_len =>
      if has_text src
      then M_ret (VizSeqByLenSorter_sort E (main_text src) cur_idx)
      else M_ret cur_idx
  | src_alphabetical =>
      if has_text src
      then M_ret (VizSeqByStrOrderSorter_sort E (main_text src) cur_idx)
      else M_ret cur_idx
  | metric | metric_diff => sort_by_metric sorting sorting_metric ref hypo cur_idx
  | none => M_ret cur_idx
  end.

(** Lines 130-131, the pagination: the inclusive range of the paginator is
    cut out of the candidates with a slice. *)
Definition get_pagination (cur_idx : list Z) (page_sz page_no : Z) : Result (list Z) :=
  '(start_idx, end_idx) ← _get_start_end_idx (py_len cur_idx) page_sz page_no;
  Ok (py_slice cur_idx start_idx (end_idx + 1)).

(** The index pipeline of [VizSeqDataPageView.get]: lines 78-132 for a mask
    that is a list, and the counts of the result.  The rest of the function
    slices, scores and renders the page from [cur_idx]; it changes neither
    the index list nor the counts.  The whole function is
    [VizSeqDataPageView_get] below: whenever it returns, its page carries
    the page of this pipeline. *)
Definition get (r : Request Flag) : M VizSeqPageData :=
  (let! _ := M_lift (py_assert ((0 <? page_no r) && (0 <? page_sz r))) in
   let page_sz := Z.min (page_sz r) MAX_PAGE_SZ in
   let cur_idx := get_query (src r) (ref r) (query r) in
   let cur_idx := get_filter_by_tags (filter_by_tags r) (is_tag_selected r) cur_idx in
   let n_samples := py_len cur_idx in
   match sorting_of_value (sorting r) with
   | None => M_lift (Raise AssertionError)
   | Some sorting =>
       let! cur_idx :=
         get_sorting sorting (sorting_metric r) (src r) (ref r) (hypo r) cur_idx in
       let! cur_idx := M_lift (get_pagination cur_idx page_sz (page_no r)) in
       M_ret {| cur_idx := cur_idx;
                n_cur_samples := py_len cur_idx;
                n_samples := n_samples;
                total_examples := Z.of_nat (len (src r)) |}
   end)%py.

End PageView.

(** ** Vocabulary of the specification *)

(** [ceil(a / b)] for a positive [b]. *)
Definition ceil_div (a b : Z) : Z := (a + b - 1) / b.

(** The page numbers [1 .. ceil(n / page_sz)] that cover [n] candidates. *)
Definition page_numbers (n page_sz : Z) : list Z :=
  (fun k => Z.of_nat k + 1) <$> seq 0 (Z.to_nat (ceil_div n page_sz)).

(** Modelled from the spec: the sorters (vizseq/_view/data_sorters) are
    declared outside this file; each returns the indices it is given in a
    new order, the same multiset. *)
Record sorters_permute {Score Rng} (E : Env Score Rng) : Prop := {
  random_permutes : forall l g, (VizSeqRandomSorter_sort E l g).1 ≡ₚ l;
  by_len_permutes : forall t l, VizSeqByLenSorter_sort E t l ≡ₚ l;
  by_str_order_permutes : forall t l, VizSeqByStrOrderSorter_sort E t l ≡ₚ l;
  by_metric_permutes : forall sc l, VizSeqByMetricSorter_sort E sc l ≡ₚ l;
  by_metric_diff_permutes : forall sc l, VizSeqByMetricDiffSorter_sort E sc l ≡ₚ l;
}.

(** The candidates the tag mask keeps, position by position: the candidate
    at position [i] is kept when the mask has a truthy entry at position
    [i]. *)
Definition kept_by_mask {Flag} `{!Truthy Flag}
    (candidates : list Z) (mask : list Flag) : list Z :=
  omap (fun i => flag ← mask !! i; if truthy flag then candidates !! i else None)
       (seq 0 (length candidates)).

(** The candidate set of a request: the indices left by the query and by
    the tag filter, before sorting and pagination. *)
Definition candidates {Score Rng Flag} `{!Truthy Flag}
    (E : Env Score Rng) (r : Request Flag) : list Z :=
  get_filter_by_tags (filter_by_tags r) (is_tag_selected r)
    (get_query E (src r) (ref r) (query r)).

(** ** A sample deployment *)

(** A text filter to run the page view on: the positions of the first
    channel whose item starts with the query. *)
Definition sample_filter (channels : list (list string)) (query : string) : list Z :=
  match channels with
  | [] => []
  | c :: _ =>
      omap (fun p : nat * string =>
              if String.prefix query p.2 then Some (Z.of_nat p.1) else None)
           (imap pair c)
  end.

(** Sample collaborators: sorters that reverse or keep the order, one
    registered metric that scores a sentence by its length, and the enum
    members numbered in order. *)
Definition sample_env : Env Z nat := {|
  VizSeqFilter_filter := sample_filter;
  VizSeqRandomSorter_sort := fun l g => (reverse l, S g);
  VizSeqByLenSorter_sort := fun _ l => l;
  VizSeqByStrOrderSorter_sort := fun _ l => reverse l;
  VizSeqByMetricSorter_sort := fun _ l => reverse l;
  VizSeqByMetricDiffSorter_sort := fun _ l => l;
  get_scorer_ids := ["bleu"%string];
  get_scorer := fun _ hyp _ => (fun h => Z.of_nat (String.length h)) <$> hyp;
  value := fun e =>
    match e with
    | none => 0 | random => 1 | ref_len => 2 | ref_alphabetical => 3
    | src_len => 4 | src_alphabetical => 5 | metric => 6 | metric_diff => 7
    end;
|}.

Definition sample_src : VizSeqDataSources := {|
  len := 5;
  has_text := true;
  text := [["a0"; "a1"; "b2"; "a3"; "b4"]%string];
  main_text := ["a0"; "a1"; "b2"; "a3"; "b4"]%string;
  text_names := ["src"%string];
|}.

Definition sample_ref : VizSeqDataSources := {|
  len := 5;
  has_text := true;
  text := [["r0"; "r1"; "r2"; "r3"; "r4"]%string];
  main_text := ["r0"; "r1"; "r2"; "r3"; "r4"]%string;
  text_names := ["ref"%string];
|}.

Definition sample_hypo : VizSeqDataSources := {|
  len := 5;
  has_text := true;
  text := [["h0"; "h1"; "h2"; "h3"; "h4"]%string];
  main_text := ["h0"; "h1"; "h2"; "h3"; "h4"]%string;
  text_names := ["model"%string];
|}.

(** A data source of five examples without text. *)
Definition sample_no_text : VizSeqDataSources := {|
  len := 5; has_text := false; text := []; main_text := []; text_names := [];
|}.

(** A request on the sample corpus, by query, sort selector, sort metric,
    page, tag mask and tag switch. *)
Definition sample_request
    (query : string) (sorting : Z) (sorting_metric : string)
    (page_sz page_no : Z) (mask : list bool) (filter_by_tags : bool)
  : Request bool := {|
  src := sample_src; ref := sample_ref; hypo := sample_hypo;
  page_sz := page_sz; page_no := page_no;
  query := query; sorting := sorting; sorting_metric := sorting_metric;
  is_tag_selected := mask; filter_by_tags := filter_by_tags;
|}.

Definition sample_world : World nat := {| rng := 0%nat; score_log := [] |}.

(** ** Enumerating a data column *)

(** An element of the data handed to [get_enum]: a list or a tuple (what
    [isinstance(e, (list, tuple))] accepts), or any other value. *)
Inductive PyItem (V : Type) : Type :=
  | PySeq (items : list V)
  | PyScalar (v : V).
Arguments PySeq {V} items.
Arguments PyScalar {V} v.

(** [VizSeqDataPageView.get_enum(data)]: [None] gives no rows; otherwise
    each element gives the row [[i] + list(e)] when it is a list or a tuple
    and [[i, e]] when it is not.  A cell is the position or a value. *)
Definition get_enum {V} (data : option (list (PyItem V))) : list (list (Z + V)) :=
  match data with
  | None => []
  | Some data =>
      imap (fun i e =>
              match e with
              | PySeq items => [inl (Z.of_nat i)] ++ (inr <$> items)
              | PyScalar v => [inl (Z.of_nat i); inr v]
              end) data
  end.

(** The values an element contributes to its row. *)
Definition item_values {V} (e : PyItem V) : list V :=
  match e with PySeq items => items | PyScalar v => [v] end.

(** The values of a row: its cells after the first. *)
Definition row_values {V} (row : list (Z + V)) : list V :=
  omap (fun c => match c with inl _ => None | inr v => Some v end) (drop 1 row).

(** ** Slicing the page out of the parallel sources *)

(** What lines 136-140 cut out of the corpus for the page: the primary
    source channel ([None] when the source has no text), every reference
    channel, and the hypotheses of every model. *)
Record PageSlices : Type := {
  cur_src_text : option (list string);
  cur_ref : list (list string);
  cur_hypo : gmap string (list string);
}.

(** Lines 138-140: [{n: _select(t, cur_idx) for n, t in zip(models, hypo.text)}];
    a repeated model name keeps its last slice. *)
Fixpoint select_models
    (pairs : list (string * list string)) (cur_idx : list Z)
    (acc : gmap string (list string)) : Result (gmap string (list string)) :=
  match pairs with
  | [] => Ok acc
  | (n, t) :: pairs' =>
      hyp ← _select t cur_idx;
      select_models pairs' cur_idx (<[n := hyp]> acc)
  end.

(** Lines 136-140 of [get], the page data read with [_select]. *)
Definition get_page_data
    (src ref hypo : VizSeqDataSources) (cur_idx : list Z) : Result PageSlices :=
  cur_src_text ←
    (if has_text src then Some <$> _select (main_text src) cur_idx else Ok None);
  cur_ref ← mapM (fun t => _select t cur_idx) (text ref);
  cur_hypo ← select_models (zip (text_names hypo) (text hypo)) cur_idx ∅;
  Ok {| cur_src_text := cur_src_text; cur_ref := cur_ref; cur_hypo := cur_hypo |}.

(** Lines 178-180 of [get]: [cur_tags = []], and [_select(tags, cur_idx)]
    when [tags] is truthy, that is neither [None] nor empty. *)
Definition get_cur_tags {T} (tags : option (list T)) (cur_idx : list Z) : Result (list T) :=
  match tags with
  | Some (t :: ts) => _select (t :: ts) cur_idx
  | _ => Ok []
  end.

(** ** Rendering *)

(** The visualizers and the language tagger (vizseq/_visualizers,
    vizseq/_data), as the page view calls them; [Src] is what
    [src.cached] returns and [Idx] what [src.text_indices] is. *)
Record Visualizers (Src Idx : Type) : Type := {
  VizSeqSrcVisualizer_visualize : Src -> Idx -> Src;
  VizSeqRefVisualizer_visualize :
    list string -> list (list string) -> Z -> list (list string);
  VizSeqHypoVisualizer_visualize :
    list string -> gmap string (list string) -> Z -> gmap string (list string);
  VizSeqLanguageTagger_tag_lang : string -> string;
}.
Arguments VizSeqSrcVisualizer_visualize {Src Idx} _.
Arguments VizSeqRefVisualizer_visualize {Src Idx} _.
Arguments VizSeqHypoVisualizer_visualize {Src Idx} _.
Arguments VizSeqLanguageTagger_tag_lang {Src Idx} _.

(** Lines 154-164 of [get]: the three rendered fields.  Without alignment
    the raw values pass through; the reference is rendered only when the
    source has text; the hypotheses are rendered against [cur_ref[0]]. *)
Definition get_rendering {Src Idx} (V : Visualizers Src Idx)
    (disable_alignment : bool) (cur_src : Src) (text_indices : Idx)
    (main_text_idx : Z) (page : PageSlices)
  : Result (Src * list (list string) * gmap string (list string)) :=
  let viz_src :=
    if negb disable_alignment
    then VizSeqSrcVisualizer_visualize V cur_src text_indices else cur_src in
  let viz_ref :=
    match negb disable_alignment, cur_src_text page with
    | true, Some src_text =>
        VizSeqRefVisualizer_visualize V src_text (cur_ref page) main_text_idx
    | _, _ => cur_ref page
    end in
  viz_hypo ←
    (if negb disable_alignment
     then ref0 ← py_getitem (cur_ref page) 0;
          Ok (VizSeqHypoVisualizer_visualize V ref0 (cur_hypo page) 0)
     else Ok (cur_hypo page));
  Ok (viz_src, viz_ref, viz_hypo).

(** Lines 174-176 of [get]: the language tags of the first reference
    channel, when asked for. *)
Definition get_trg_lang {Src Idx} (V : Visualizers Src Idx)
    (need_lang_tags : bool) (page : PageSlices) : Result (option (list string)) :=
  if need_lang_tags
  then ref0 ← py_getitem (cur_ref page) 0;
       Ok (Some (VizSeqLanguageTagger_tag_lang V <$> (ref0 : list string)))
  else Ok None.

(** ** Vocabulary for the slices *)

(** Every index is a position of the list [t]. *)
Definition in_bounds {A} (t : list A) (indices : list Z) : Prop :=
  Forall (fun i => 0 <= i < py_len t) indices.

(** [ys] is [t] read at the indices, position by position: [ys[k] = t[indices[k]]]. *)
Definition read_at {A} (t : list A) (indices : list Z) (ys : list A) : Prop :=
  Forall2 (fun i y => t !! Z.to_nat i = Some y) indices ys.

(** The request [r] with another page size. *)
Definition with_page_sz {Flag} (r : Request Flag) (ps : Z) : Request Flag := {|
  src := src r; ref := ref r; hypo := hypo r;
  page_sz := ps; page_no := page_no r;
  query := query r; sorting := sorting r; sorting_metric := sorting_metric r;
  is_tag_selected := is_tag_selected r; filter_by_tags := filter_by_tags r;
|}.

(** Sample visualizers: they mark what they render, and every sentence is
    tagged as English. *)
Definition sample_visualizers : Visualizers (list (list string)) unit := {|
  VizSeqSrcVisualizer_visualize := fun cur_src _ => reverse cur_src;
  VizSeqRefVisualizer_visualize := fun _ cur_ref _ => reverse <$> cur_ref;
  VizSeqHypoVisualizer_visualize := fun _ cur_hypo _ => reverse <$> cur_hypo;
  VizSeqLanguageTagger_tag_lang := fun _ => "en"%string;
|}.

(** A request on a corpus whose source has no text. *)
Definition sample_request_no_source_text (sorting : Z) : Request bool := {|
  src := sample_no_text; ref := sample_ref; hypo := sample_hypo;
  page_sz := 2; page_no := 1;
  query := "r"%string; sorting := sorting; sorting_metric := "bleu"%string;
  is_tag_selected := []; filter_by_tags := false;
|}.

(** ** The whole of [get] *)

(** All the arguments of [VizSeqDataPageView.get], as its signature has
    them: [metrics], [tags] and the mask [is_tag_selected] may be [None]. *)
Record GetArgs (Flag : Type) : Type := {
  arg_src : VizSeqDataSources;
  arg_ref : VizSeqDataSources;
  arg_hypo : VizSeqDataSources;
  arg_page_sz : Z;
  arg_page_no : Z;
  arg_metrics : option (list string);
  arg_query : string;
  arg_sorting : Z;
  arg_sorting_metric : string;
  arg_need_lang_tags : bool;
  arg_disable_alignment : bool;
  arg_tags : option (list string);
  arg_is_tag_selected : option (list Flag);
  arg_filter_by_tags : bool;
}.
Arguments arg_src {Flag} _.
Arguments arg_ref {Flag} _.
Arguments arg_hypo {Flag} _.
Arguments arg_page_sz {Flag} _.
Arguments arg_page_no {Flag} _.
Arguments arg_metrics {Flag} _.
Arguments arg_query {Flag} _.
Arguments arg_sorting {Flag} _.
Arguments arg_sorting_metric {Flag} _.
Arguments arg_need_lang_tags {Flag} _.
Arguments arg_disable_alignment {Flag} _.
Arguments arg_tags {Flag} _.
Arguments arg_is_tag_selected {Flag} _.
Arguments arg_filter_by_tags {Flag} _.

(** The arguments the index pipeline reads, with the mask as a list. *)
Definition index_request {Flag} (a : GetArgs Flag) (mask : list Flag) : Request Flag := {|
  src := arg_src a; ref := arg_ref a; hypo := arg_hypo a;
  page_sz := arg_page_sz a; page_no := arg_page_no a;
  query := arg_query a; sorting := arg_sorting a;
  sorting_metric := arg_sorting_metric a;
  is_tag_selected := mask; filter_by_tags := arg_filter_by_tags a;
|}.

(** The collaborators of the second half of [get]: [src.cached],
    [src.text_indices] and [src.main_text_idx] of the data source,
    [np.round(_, decimals=2)] on an array of sentence scores, the dict
    visualizer, and the visualizers of the text fields. *)
Record Display (Score Src Idx DictViz : Type) : Type := {
  cached : VizSeqDataSources -> list Z -> Src;
  text_indices : VizSeqDataSources -> Idx;
  main_text_idx : VizSeqDataSources -> Z;
  np_round : list Score -> list Score;
  VizSeqDictVisualizer_visualize : gmap string Score -> DictViz;
  visualizers : Visualizers Src Idx;
}.
Arguments cached {Score Src Idx DictViz} _.
Arguments text_indices {Score Src Idx DictViz} _.
Arguments main_text_idx {Score Src Idx DictViz} _.
Arguments np_round {Score Src Idx DictViz} _.
Arguments VizSeqDictVisualizer_visualize {Score Src Idx DictViz} _.
Arguments visualizers {Score Src Idx DictViz} _.

(** The tuple [VizSeqPageData] that [get] returns.  The slices
    [cur_src_text] and [cur_ref] are those of [page_slices]; the index list
    and the three counts are those of [page_index]. *)
Record VizSeqPage (Src DictViz : Type) : Type := {
  viz_src : Src;
  viz_ref : list (list string);
  viz_hypo : gmap string (list string);
  cur_src : Src;
  page_slices : PageSlices;
  cur_tags : list string;
  viz_sent_scores : list (gmap string DictViz);
  trg_lang : option (list string);
  page_index : VizSeqPageData;
}.
Arguments viz_src {Src DictViz} _.
Arguments viz_ref {Src DictViz} _.
Arguments viz_hypo {Src DictViz} _.
Arguments cur_src {Src DictViz} _.
Arguments page_slices {Src DictViz} _.
Arguments cur_tags {Src DictViz} _.
Arguments viz_sent_scores {Src DictViz} _.
Arguments trg_lang {Src DictViz} _.
Arguments page_index {Src DictViz} _.

Section WholeGet.
Context {Score Rng Flag Src Idx DictViz : Type} `{!Truthy Flag}.
Variable E : Env Score Rng.
Variable D : Display Score Src Idx DictViz.

(** Modelled from the spec: [get_scorer] (vizseq/scorers) is declared
    outside this file; it resolves a metric id to a scorer or fails with an
    unknown-metric error.  The registered ids are those of
    [get_scorer_ids()], the test line 112 itself uses. *)
Definition resolve_scorer (s : string) : Result (Scorer Score) :=
  if bool_decide (s ∈ get_scorer_ids E) then Ok (get_scorer E s)
  else Raise UnknownMetric.

(** Lines 90-92 with the mask as the signature has it: [zip] raises
    [TypeError] on [None]. *)
Definition filter_by_mask
    (filter_by_tags : bool) (is_tag_selected : option (list Flag))
    (cur_idx : list Z) : Result (list Z) :=
  if filter_by_tags then
    match is_tag_selected with
    | Some mask => Ok (select_tagged cur_idx mask)
    | None => Raise TypeError
    end
  else Ok cur_idx.

(** Lines 145-148, the inner dict comprehension over [cur_hypo.items()]:
    the scorer of [s] is resolved for every model.  The order of the items
    does not matter: the keys are distinct and every item resolves the same
    [s]. *)
Fixpoint score_hypotheses
    (s : string) (items : list (string * list string))
    (cur_ref : list (list string)) (acc : gmap string (list Score))
  : Result (gmap string (list Score)) :=
  match items with
  | [] => Ok acc
  | (m, hh) :: items' =>
      scorer ← resolve_scorer s;
      score_hypotheses s items' cur_ref
        (<[m := np_round D ((scorer : Scorer Score) hh cur_ref)]> acc)
  end.

(** Lines 143-151, [cur_sent_scores]. *)
Fixpoint get_sent_scores
    (metrics : list string) (cur_hypo : gmap string (list string))
    (cur_ref : list (list string))
    (acc : gmap string (gmap string (list Score)))
  : Result (gmap string (gmap string (list Score))) :=
  match metrics with
  | [] => Ok acc
  | s :: metrics' =>
      per_model ← score_hypotheses s (map_to_list cur_hypo) cur_ref ∅;
      get_sent_scores metrics' cur_hypo cur_ref (<[s := per_model]> acc)
  end.

(** [{m: cur_sent_scores[s][m][i] for m in models}] *)
Fixpoint sent_score_row
    (cur_sent_scores : gmap string (gmap string (list Score)))
    (s : string) (models : list string) (i : Z) (row : gmap string Score)
  : Result (gmap string Score) :=
  match models with
  | [] => Ok row
  | m :: models' =>
      per_model ← py_dict_getitem cur_sent_scores s;
      scores ← py_dict_getitem per_model m;
      x ← py_getitem scores i;
      sent_score_row cur_sent_scores s models' i (<[m := x]> row)
  end.

(** Lines 166-170, the dict over [metrics] for the example [i]. *)
Fixpoint viz_scores_of_example
    (cur_sent_scores : gmap string (gmap string (list Score)))
    (metrics models : list string) (i : Z) (acc : gmap string DictViz)
  : Result (gmap string DictViz) :=
  match metrics with
  | [] => Ok acc
  | s :: metrics' =>
      row ← sent_score_row cur_sent_scores s models i ∅;
      viz_scores_of_example cur_sent_scores metrics' models i
        (<[s := VizSeqDictVisualizer_visualize D row]> acc)
  end.

(** Lines 165-172, [viz_sent_scores]. *)
Definition get_viz_sent_scores
    (cur_sent_scores : gmap string (gmap string (list Score)))
    (metrics models : list string) (n_cur_samples : nat)
  : Result (list (gmap string DictViz)) :=
  mapM (fun i => viz_scores_of_example cur_sent_scores metrics models i ∅)
       (py_range n_cur_samples).

(** Lines 134-196 of [get]: the page is sliced, scored and rendered from
    the final index list, and the tuple is built. *)
Definition get_page
    (a : GetArgs Flag) (metrics : list string) (n_samples : Z) (cur_idx : list Z)
  : Result (VizSeqPage Src DictViz) :=
  let n_cur_samples := py_len cur_idx in
  let models := text_names (arg_hypo a) in
  let cur_src := cached D (arg_src a) cur_idx in
  slices ← get_page_data (arg_src a) (arg_ref a) (arg_hypo a) cur_idx;
  cur_sent_scores ← get_sent_scores metrics (cur_hypo slices) (cur_ref slices) ∅;
  rendered ←
    get_rendering (visualizers D) (arg_disable_alignment a) cur_src
      (text_indices D (arg_src a)) (main_text_idx D (arg_src a)) slices;
  viz_sent_scores ←
    get_viz_sent_scores cur_sent_scores metrics models (length cur_idx);
  trg_lang ← get_trg_lang (visualizers D) (arg_need_lang_tags a) slices;
  cur_tags ← get_cur_tags (arg_tags a) cur_idx;
  Ok {| viz_src := rendered.1.1;
        viz_ref := rendered.1.2;
        viz_hypo := rendered.2;
        cur_src := cur_src;
        page_slices := slices;
        cur_tags := cur_tags;
        viz_sent_scores := viz_sent_scores;
        trg_lang := trg_lang;
        page_index :=
          {| cur_idx := cur_idx;
             n_cur_samples := n_cur_samples;
             n_samples := n_samples;
             total_examples := Z.of_nat (len (arg_src a)) |} |}.

(** [VizSeqDataPageView.get], lines 78-196. *)
Definition VizSeqDataPageView_get (a : GetArgs Flag) : M Rng (VizSeqPage Src DictViz) :=
  (let! _ := M_lift (py_assert ((0 <? arg_page_no a) && (0 <? arg_page_sz a))) in
   let page_sz := Z.min (arg_page_sz a) MAX_PAGE_SZ in
   let metrics := match arg_metrics a with None => [] | Some metrics => metrics end in
   let cur_idx := get_query E (arg_src a) (arg_ref a) (arg_query a) in
   let! cur_idx :=
     M_lift (filter_by_mask (arg_filter_by_tags a) (arg_is_tag_selected a) cur_idx) in
   let n_samples := py_len cur_idx in
   match sorting_of_value E (arg_sorting a) with
   | None => M_lift (Raise AssertionError)
   | Some sorting =>
       let! cur_idx :=
         get_sorting E sorting (arg_sorting_metric a)
           (arg_src a) (arg_ref a) (arg_hypo a) cur_idx in
       let! cur_idx := M_lift (get_pagination cur_idx page_sz (arg_page_no a)) in
       M_lift (get_page a metrics n_samples cur_idx)
   end)%py.

(** The candidates of a call: the indices left by the query and by the tag
    filter, when the tag filter can run. *)
Definition call_candidates (a : GetArgs Flag) : Result (list Z) :=
  filter_by_mask (arg_filter_by_tags a) (arg_is_tag_selected a)
    (get_query E (arg_src a) (arg_ref a) (arg_query a)).

End WholeGet.

(** The call [a] with another sorting selector. *)
Definition with_sorting {Flag} (a : GetArgs Flag) (sorting : Z) : GetArgs Flag := {|
  arg_src := arg_src a; arg_ref := arg_ref a; arg_hypo := arg_hypo a;
  arg_page_sz := arg_page_sz a; arg_page_no := arg_page_no a;
  arg_metrics := arg_metrics a; arg_query := arg_query a;
  arg_sorting := sorting; arg_sorting_metric := arg_sorting_metric a;
  arg_need_lang_tags := arg_need_lang_tags a;
  arg_disable_alignment := arg_disable_alignment a;
  arg_tags := arg_tags a; arg_is_tag_selected := arg_is_tag_selected a;
  arg_filter_by_tags := arg_filter_by_tags a;
|}.

(** Sample collaborators for the second half of [get]: cached sources are
    the source channels read at the indices, rounding is the identity, and
    the dict visualizer keeps the scores. *)
Definition sample_display
  : Display Z (list (list string)) unit (gmap string Z) := {|
  cached := fun src cur_idx =>
    (fun t => omap (fun i => t !! Z.to_nat i) cur_idx) <$> text src;
  text_indices := fun _ => tt;
  main_text_idx := fun _ => 0;
  np_round := fun scores => scores;
  VizSeqDictVisualizer_visualize := fun row => row;
  visualizers := sample_visualizers;
|}.

(** A call on the sample source and hypotheses, by reference source, query,
    sort selector, sort metric, display metrics, alignment switch, tag mask
    and tag switch; it asks for the first page of ten, without tags or
    language tags. *)
Definition sample_call
    (ref : VizSeqDataSources) (query : string) (sorting : Z)
    (sorting_metric : string) (metrics : option (list string))
    (disable_alignment : bool) (mask : option (list bool)) (filter_by_tags : bool)
  : GetArgs bool := {|
  arg_src := sample_src; arg_ref := ref; arg_hypo := sample_hypo;
  arg_page_sz := 10; arg_page_no := 1;
  arg_metrics := metrics; arg_query := query;
  arg_sorting := sorting; arg_sorting_metric := sorting_metric;
  arg_need_lang_tags := false; arg_disable_alignment := disable_alignment;
  arg_tags := None; arg_is_tag_selected := mask;
  arg_filter_by_tags := filter_by_tags;
|}.

(** * Properties *)

(** ** Slicing and indexing *)

Example select_skips : _select ["a"; "b"; "c"]%string [2; 7; 0; 3] = Ok ["c"; "a"]%string.
Proof. reflexivity. Qed.

Example select_negative : _select ["a"; "b"; "c"]%string [-1; -3] = Ok ["c"; "a"]%string.
Proof. reflexivity. Qed.

Example select_too_negative : _select ["a"; "b"; "c"]%string [0; -4] = Raise IndexError.
Proof. reflexivity. Qed.

Example slice_empty : py_slice (@nil Z) (-1) 10 = [].
Proof. reflexivity. Qed.

Example slice_mid : py_slice [10; 11; 12; 13; 14] 1 3 = [11; 12].
Proof. reflexivity. Qed.

Example slice_neg : py_slice [10; 11; 12; 13; 14] (-2) 99 = [13; 14].
Proof. reflexivity. Qed.

Lemma py_len_nonneg {A} (l : list A) : 0 <= py_len l.
Proof. unfold py_len. lia. Qed.

Lemma py_len_nil {A} : py_len (@nil A) = 0.
Proof. reflexivity. Qed.

Lemma py_getitem_nonneg {A} (l : list A) (i : Z) :
  0 <= i -> i < py_len l ->
  exists x, l !! Z.to_nat i = Some x /\ py_getitem l i = Ok x.
Proof.
  intros H0 Hlt. unfold py_getitem.
  destruct (Z.ltb_spec i 0) as [?|_]; [lia|].
  destruct (Z.leb_spec 0 i) as [_|?]; [|lia].
  destruct (Z.ltb_spec i (py_len l)) as [_|?]; [|lia]. simpl.
  destruct (l !! Z.to_nat i) as [x|] eqn:Hx; [eauto|].
  apply lookup_ge_None in Hx. unfold py_len in Hlt. lia.
Qed.

(** ** The slicing helper *)

Lemma _select_nonneg_omap {A} (xs : list A) (indices : list Z) :
  Forall (fun i => 0 <= i) indices ->
  _select xs indices = Ok (omap (fun i => xs !! Z.to_nat i) indices).
Proof.
  induction 1 as [|i rest Hi _ IH]; [reflexivity|].
  cbn [_select omap list_omap]. destruct (Z.ltb_spec i (py_len xs)) as [Hlt|Hge].
  - destruct (py_getitem_nonneg xs i Hi Hlt) as (x & Hx & ->).
    rewrite IH, Hx. reflexivity.
  - rewrite IH. replace (xs !! Z.to_nat i) with (@None A); [reflexivity|].
    symmetry. apply lookup_ge_None. unfold py_len in Hge. lia.
Qed.

(** C10. On non-negative indices [_select] never raises: it returns, in the
    order of the indices, the element [xs[i]] for exactly those indices [i]
    with [i < len(xs)]; out-of-range indices are skipped, so a channel
    shorter than the corpus gives a shorter slice. *)
Theorem select_total_on_nonneg {A} (xs : list A) (indices : list Z) :
  Forall (fun i => 0 <= i) indices ->
  exists ys,
    _select xs indices = Ok ys
    /\ Forall2 (fun i y => xs !! Z.to_nat i = Some y)
               (filter (fun i => i < py_len xs) indices) ys
    /\ (length ys <= length indices)%nat.
Proof.
  intros Hnn. induction Hnn as [|i rest Hi _ (ys & Hsel & Hall & Hlen)].
  - exists []. repeat split; [constructor | reflexivity].
  - cbn [_select]. rewrite filter_cons.
    destruct (Z.ltb_spec i (py_len xs)) as [Hlt|Hge].
    + destruct (py_getitem_nonneg xs i Hi Hlt) as (x & Hx & ->).
      rewrite Hsel. exists (x :: ys). rewrite decide_True by done.
      repeat split; [by constructor | simpl; lia].
    + exists ys. rewrite decide_False by lia.
      repeat split; [done.. | simpl; lia].
Qed.

Lemma select_total_on_nonneg_witness :
  Forall (fun i => 0 <= i) [2; 7; 0; 3]
  /\ exists ys,
       _select ["a"; "b"; "c"]%string [2; 7; 0; 3] = Ok ys
       /\ Forall2 (fun i y => ["a"; "b"; "c"]%string !! Z.to_nat i = Some y)
                  (filter (fun i => i < py_len ["a"; "b"; "c"]%string) [2; 7; 0; 3]) ys
       /\ (length ys <= length [2; 7; 0; 3])%nat.
Proof.
  assert (H : Forall (fun i => 0 <= i) [2; 7; 0; 3]) by (repeat constructor; lia).
  split; [exact H | exact (select_total_on_nonneg _ _ H)].
Defined.

(** ** The paginator *)

Lemma _get_start_end_idx_Ok (n ps pn : Z) :
  0 < ps -> 0 < pn ->
  _get_start_end_idx n ps pn =
    Ok (Z.min (ps * (pn - 1)) (n - 1),
        Z.max (ps * pn - 1) (Z.min (ps * (pn - 1)) (n - 1))).
Proof.
  intros Hps Hpn. unfold _get_start_end_idx.
  destruct (Z.ltb_spec 0 ps) as [_|?]; [|lia].
  destruct (Z.ltb_spec 0 pn) as [_|?]; [|lia].
  reflexivity.
Qed.

(** C1. For a positive page size and page number the paginator returns
    [start_idx = min(page_sz * (page_no - 1), n_items - 1)] and
    [end_idx = max(page_sz * page_no - 1, start_idx)]. *)
Theorem get_start_end_idx_formula (n ps pn : Z) :
  0 < ps -> 0 < pn ->
  exists start_idx end_idx,
    _get_start_end_idx n ps pn = Ok (start_idx, end_idx)
    /\ start_idx = Z.min (ps * (pn - 1)) (n - 1)
    /\ end_idx = Z.max (ps * pn - 1) start_idx.
Proof.
  intros Hps Hpn. rewrite _get_start_end_idx_Ok by done. eauto.
Qed.

Lemma get_start_end_idx_formula_witness :
  0 < 10 /\ 0 < 3
  /\ exists start_idx end_idx,
       _get_start_end_idx 25 10 3 = Ok (start_idx, end_idx)
       /\ start_idx = Z.min (10 * (3 - 1)) (25 - 1)
       /\ end_idx = Z.max (10 * 3 - 1) start_idx.
Proof.
  split; [lia|]. split; [lia|].
  apply (get_start_end_idx_formula 25 10 3); lia.
Defined.

Lemma _get_start_end_idx_assert (n ps pn : Z) :
  _get_start_end_idx n ps pn = Raise AssertionError <-> ps <= 0 \/ pn <= 0.
Proof.
  unfold _get_start_end_idx.
  destruct (Z.ltb_spec 0 ps), (Z.ltb_spec 0 pn); cbn; split; intros; try lia; try done.
Qed.

(** The page cut by lines 130-131, as a plain sub-list of the candidates. *)
Lemma get_pagination_take_drop (l : list Z) (ps pn : Z) :
  0 < ps -> 0 < pn ->
  get_pagination l ps pn =
    Ok (take (Z.to_nat ps)
             (drop (Z.to_nat (Z.min (ps * (pn - 1)) (py_len l - 1))) l)).
Proof.
  intros Hps Hpn. unfold get_pagination.
  rewrite _get_start_end_idx_Ok by done.
  set (s := Z.min (ps * (pn - 1)) (py_len l - 1)).
  set (e := Z.max (ps * pn - 1) s).
  assert (Hs : s = Z.min (ps * (pn - 1)) (py_len l - 1)) by done.
  assert (He : e = Z.max (ps * pn - 1) s) by done.
  clearbody s e.
  cbn. f_equal. unfold py_slice.
  pose proof (py_len_nonneg l) as Hn.
  assert (Hmul : 0 <= ps * (pn - 1)) by nia.
  set (a := adjust_bound (py_len l) s).
  set (b := adjust_bound (py_len l) (e + 1)).
  assert (Ha : Z.to_nat a = Z.to_nat s).
  { unfold a, adjust_bound. destruct (Z.ltb_spec s 0); lia. }
  rewrite Ha.
  assert (Hlen : length (drop (Z.to_nat s) l) = Z.to_nat (py_len l - Z.max s 0)).
  { rewrite length_drop. unfold py_len. lia. }
  destruct (Z.le_gt_cases (a + ps) (py_len l)) as [Hfit|Hover].
  - replace (Z.to_nat (b - a)) with (Z.to_nat ps); [done|].
    unfold a, b, adjust_bound in *.
    destruct (Z.ltb_spec s 0), (Z.ltb_spec (e + 1) 0); lia.
  - rewrite !take_ge; [done|..]; rewrite Hlen.
    + unfold a, adjust_bound in *. destruct (Z.ltb_spec s 0); lia.
    + unfold a, b, adjust_bound in *.
      destruct (Z.ltb_spec s 0), (Z.ltb_spec (e + 1) 0); lia.
Qed.

Lemma mapM_fmap_Ok {A B C} (f : B -> Result C) (h : A -> B) (g : A -> C) (l : list A) :
  (forall x, x ∈ l -> f (h x) = Ok (g x)) -> mapM f (h <$> l) = Ok (g <$> l).
Proof.
  induction l as [|x l IH]; intros Hf; [reflexivity|].
  cbn. rewrite Hf by left. cbn. rewrite IH; [reflexivity|].
  intros y Hy. apply Hf. by right.
Qed.

Lemma mapM_Ok {A B} (f : A -> Result B) (g : A -> B) (l : list A) :
  (forall x, x ∈ l -> f x = Ok (g x)) -> mapM f l = Ok (g <$> l).
Proof.
  intros Hf. rewrite <- (list_fmap_id l) at 1. by apply mapM_fmap_Ok.
Qed.

Lemma concat_chunks {A} (l : list A) (p P : nat) :
  concat ((fun k => take p (drop (k * p) l)) <$> seq 0 P) = take (P * p) l.
Proof.
  induction P as [|P IH]; [by rewrite take_0|].
  rewrite seq_S, fmap_app, concat_app, IH. cbn.
  rewrite app_nil_r, take_take_drop. f_equal. lia.
Qed.

Lemma ceil_div_covers (n ps : Z) :
  0 < ps -> n <= ceil_div n ps * ps /\ ceil_div n ps * ps < n + ps.
Proof.
  intros Hps. unfold ceil_div.
  pose proof (Z.div_mod (n + ps - 1) ps ltac:(lia)).
  pose proof (Z.mod_pos_bound (n + ps - 1) ps Hps). lia.
Qed.

(** C4. Pagination partitions the candidates: for a positive page size, the
    pages numbered [1 .. ceil(n / page_sz)], concatenated in order, are the
    candidate list itself, nothing missing and nothing repeated. *)
Theorem pages_partition_candidates (l : list Z) (ps : Z) :
  0 < ps ->
  exists pages,
    mapM (fun pn => get_pagination l ps pn) (page_numbers (py_len l) ps) = Ok pages
    /\ concat pages = l.
Proof.
  intros Hps. unfold page_numbers.
  set (P := Z.to_nat (ceil_div (py_len l) ps)).
  set (p := Z.to_nat ps).
  destruct (ceil_div_covers (py_len l) ps Hps) as [Hlo Hhi].
  pose proof (py_len_nonneg l) as Hn.
  exists ((fun k => take p (drop (k * p) l)) <$> seq 0 P). split.
  - apply mapM_fmap_Ok. intros k Hk. apply elem_of_seq in Hk.
    rewrite get_pagination_take_drop by lia. do 3 f_equal.
    subst P p. nia.
  - rewrite concat_chunks. apply take_ge. unfold py_len in *. subst P p. nia.
Qed.

Lemma pages_partition_candidates_witness :
  0 < 2
  /\ exists pages,
       mapM (fun pn => get_pagination [3; 1; 4; 1; 5] 2 pn)
            (page_numbers (py_len [3; 1; 4; 1; 5]) 2) = Ok pages
       /\ concat pages = [3; 1; 4; 1; 5].
Proof.
  split; [lia|]. apply (pages_partition_candidates [3; 1; 4; 1; 5] 2). lia.
Defined.

Lemma get_pagination_nil (ps pn : Z) :
  0 < ps -> 0 < pn -> get_pagination [] ps pn = Ok [].
Proof.
  intros Hps Hpn. rewrite get_pagination_take_drop by done.
  by rewrite drop_nil, take_nil.
Qed.

Lemma get_pagination_length (l : list Z) (ps pn : Z) :
  0 < ps -> 0 < pn ->
  exists page,
    get_pagination l ps pn = Ok page
    /\ 0 <= py_len page <= Z.min ps (py_len l).
Proof.
  intros Hps Hpn. rewrite get_pagination_take_drop by done.
  eexists. split; [reflexivity|].
  unfold py_len. rewrite length_take, length_drop. lia.
Qed.

Lemma drop_to_last {A} (l : list A) (x : A) :
  last l = Some x -> drop (length l - 1) l = [x].
Proof.
  intros Hlast. rewrite last_lookup in Hlast.
  replace (Init.Nat.pred (length l)) with (length l - 1)%nat in Hlast by lia.
  pose proof (lookup_lt_Some _ _ _ Hlast) as Hlt.
  rewrite (drop_S _ _ _ Hlast), drop_ge; [done | lia].
Qed.

Lemma get_pagination_beyond (l : list Z) (ps pn : Z) (x : Z) :
  0 < ps -> last l = Some x -> ceil_div (py_len l) ps < pn ->
  get_pagination l ps pn = Ok [x].
Proof.
  intros Hps Hlast Hpn.
  destruct (ceil_div_covers (py_len l) ps Hps) as [Hlo Hhi].
  assert (Hn : 1 <= py_len l).
  { destruct l; [done|]. unfold py_len. simpl. lia. }
  assert (Hpn0 : 0 < pn) by nia.
  rewrite get_pagination_take_drop by done.
  replace (Z.to_nat (Z.min (ps * (pn - 1)) (py_len l - 1)))
    with (length l - 1)%nat by (unfold py_len in *; nia).
  rewrite (drop_to_last _ _ Hlast).
  destruct (Z.to_nat ps) as [|p] eqn:Hp; [lia|]. cbn. by rewrite take_nil.
Qed.

(** C5. A page number beyond the last non-empty page does not fail: the
    page is the single last candidate, and the slice taken for it starts and
    ends at the last candidate position [n - 1]. *)
Theorem page_beyond_last_saturates (l : list Z) (ps pn : Z) :
  0 < ps -> 1 <= py_len l -> ceil_div (py_len l) ps < pn ->
  exists start_idx end_idx x,
    _get_start_end_idx (py_len l) ps pn = Ok (start_idx, end_idx)
    /\ adjust_bound (py_len l) start_idx = py_len l - 1
    /\ adjust_bound (py_len l) (end_idx + 1) - 1 = py_len l - 1
    /\ last l = Some x
    /\ get_pagination l ps pn = Ok [x].
Proof.
  intros Hps Hn Hpn.
  destruct (ceil_div_covers (py_len l) ps Hps) as [Hlo Hhi].
  assert (Hpn0 : 0 < pn) by nia.
  assert (Hbeyond : py_len l <= ps * (pn - 1)) by nia.
  pose proof (_get_start_end_idx_Ok (py_len l) ps pn Hps Hpn0) as Hse.
  set (s := Z.min (ps * (pn - 1)) (py_len l - 1)) in Hse.
  set (e := Z.max (ps * pn - 1) s) in Hse.
  assert (Hs : s = Z.min (ps * (pn - 1)) (py_len l - 1)) by done.
  assert (He : e = Z.max (ps * pn - 1) s) by done.
  clearbody s e.
  destruct (last l) as [x|] eqn:Hlast; cycle 1.
  { apply last_None in Hlast. subst l. unfold py_len in Hn. simpl in Hn. lia. }
  exists s, e, x. split; [done|].
  assert (Hs' : s = py_len l - 1) by lia.
  repeat split.
  - unfold adjust_bound. destruct (Z.ltb_spec s 0); lia.
  - unfold adjust_bound. destruct (Z.ltb_spec (e + 1) 0); nia.
  - by apply get_pagination_beyond.
Qed.

Lemma page_beyond_last_saturates_witness :
  0 < 10 /\ 1 <= py_len [7; 8; 9] /\ ceil_div (py_len [7; 8; 9]) 10 < 4
  /\ exists start_idx end_idx x,
       _get_start_end_idx (py_len [7; 8; 9]) 10 4 = Ok (start_idx, end_idx)
       /\ adjust_bound (py_len [7; 8; 9]) start_idx = py_len [7; 8; 9] - 1
       /\ adjust_bound (py_len [7; 8; 9]) (end_idx + 1) - 1 = py_len [7; 8; 9] - 1
       /\ last [7; 8; 9] = Some x
       /\ get_pagination [7; 8; 9] 10 4 = Ok [x].
Proof.
  assert (H1 : 0 < 10) by lia.
  assert (H2 : 1 <= py_len [7; 8; 9]) by (vm_compute; discriminate).
  assert (H3 : ceil_div (py_len [7; 8; 9]) 10 < 4) by reflexivity.
  repeat (split; [assumption|]).
  exact (page_beyond_last_saturates [7; 8; 9] 10 4 H1 H2 H3).
Defined.

(** ** The page view *)

Section PageViewFacts.
Context {Score Rng Flag : Type} `{!Truthy Flag}.
Variable E : Env Score Rng.
Implicit Types (w : World Rng) (r : Request Flag).

Lemma M_bind_Ok {A B} (m : M Rng A) (k : A -> M Rng B) w b w' :
  M_bind m k w = Ok (b, w')
  <-> exists a w1, m w = Ok (a, w1) /\ k a w1 = Ok (b, w').
Proof.
  unfold M_bind. destruct (m w) as [[a w1]|e].
  - split; [eauto|]. by intros (? & ? & [= <- <-] & ?).
  - split; [done|]. by intros (? & ? & ? & _).
Qed.

Lemma M_bind_Raise {A B} (m : M Rng A) (k : A -> M Rng B) w e :
  M_bind m k w = Raise e
  <-> m w = Raise e \/ exists a w1, m w = Ok (a, w1) /\ k a w1 = Raise e.
Proof.
  unfold M_bind. destruct (m w) as [[a w1]|e'].
  - split; [eauto|]. intros [?|(? & ? & [= <- <-] & ?)]; done.
  - split; [intros [= ->]; by left|]. intros [[= ->]|(? & ? & [=] & _)]. done.
Qed.

Lemma M_lift_Ok {A} (x : Result A) w a w' :
  M_lift x w = Ok (a, w') <-> x = Ok a /\ w' = w.
Proof.
  unfold M_lift. destruct x as [a0|e0]; split.
  - by intros [= -> ->].
  - by intros [[= ->] ->].
  - done.
  - by intros [[=] _].
Qed.

Lemma M_lift_Raise {A} (x : Result A) w e :
  M_lift x w = Raise e <-> x = Raise e.
Proof.
  unfold M_lift. destruct x as [a0|e0]; split; try done; by intros [= ->].
Qed.

Lemma M_ret_Ok {A} (x : A) w a w' :
  M_ret x w = Ok (a, w') <-> a = x /\ w' = w.
Proof. unfold M_ret. split; [by intros [= -> ->] | by intros [-> ->]]. Qed.

(** *** What the sorting stage can raise *)

Lemma py_getitem_no_assert {A} (l : list A) (i : Z) :
  py_getitem l i <> Raise AssertionError.
Proof. unfold py_getitem. repeat case_match; done. Qed.

Lemma _select_no_assert {A} (l : list A) (indices : list Z) :
  _select l indices <> Raise AssertionError.
Proof.
  induction indices as [|i rest IH]; [done|]. cbn [_select].
  case_match; [|done].
  pose proof (py_getitem_no_assert l i).
  destruct (py_getitem l i) as [x|[]]; cbn; try done.
  destruct (_select l rest) as [xs|[]]; cbn; done.
Qed.

Lemma mapM_no_assert {A B} (f : A -> Result B) (l : list A) :
  (forall x, f x <> Raise AssertionError) -> mapM f l <> Raise AssertionError.
Proof.
  intros Hf. induction l as [|x l IH]; [done|]. cbn.
  pose proof (Hf x). destruct (f x) as [y|[]]; cbn; try done.
  destruct (mapM f l) as [ys|[]]; cbn; done.
Qed.

Lemma score_row_no_assert (scores : gmap string (list Score)) models i row :
  score_row scores models i row <> Raise AssertionError.
Proof.
  revert row. induction models as [|m models IH]; intros row; [done|].
  cbn [score_row]. unfold py_dict_getitem.
  destruct (scores !! m) as [s|]; cbn; [|done].
  pose proof (py_getitem_no_assert s i).
  destruct (py_getitem s i) as [x|[]]; cbn; done.
Qed.

Lemma score_models_no_assert sorting_metric pairs cur_idx _cur_ref scores w :
  score_models E sorting_metric pairs cur_idx _cur_ref scores w
  <> Raise AssertionError.
Proof.
  revert scores w. induction pairs as [|[m t] pairs IH]; intros scores w; [done|].
  cbn [score_models]. unfold M_bind, M_lift.
  pose proof (_select_no_assert t cur_idx).
  destruct (_select t cur_idx) as [hyp|[]]; cbn; done.
Qed.

Lemma sort_by_metric_no_assert s sorting_metric ref hypo cur_idx w :
  sort_by_metric E s sorting_metric ref hypo cur_idx w <> Raise AssertionError.
Proof.
  unfold sort_by_metric. case_bool_decide; [|done].
  rewrite !M_bind_Raise, !M_lift_Raise.
  intros [Href|(_cur_ref & w1 & _ & Hrest)].
  { by eapply mapM_no_assert, Href; intros; apply _select_no_assert. }
  rewrite M_bind_Raise in Hrest.
  destruct Hrest as [Hsc|(scores & w2 & _ & Hrest)].
  { by eapply score_models_no_assert. }
  rewrite M_bind_Raise, M_lift_Raise in Hrest.
  destruct Hrest as [Hrows|(rows & w3 & _ & Hrest)].
  { by eapply mapM_no_assert, Hrows; intros; apply score_row_no_assert. }
  by destruct s.
Qed.

Lemma get_sorting_no_assert s sorting_metric src ref hypo cur_idx w :
  get_sorting E s sorting_metric src ref hypo cur_idx w <> Raise AssertionError.
Proof.
  destruct s; cbn [get_sorting]; try done;
    try (case_match; done); try apply sort_by_metric_no_assert.
Qed.

(** *** The tag filter *)

Lemma omap_fmap {A B C} (f : B -> option C) (g : A -> B) (l : list A) :
  omap f (g <$> l) = omap (f ∘ g) l.
Proof.
  induction l as [|x l IH]; [done|]. csimpl. by rewrite IH.
Qed.

Lemma omap_all_None {A B} (f : A -> option B) (l : list A) :
  (forall x, f x = None) -> omap f l = [].
Proof.
  intros Hf. induction l as [|x l IH]; [done|]. csimpl. by rewrite Hf.
Qed.

Lemma select_tagged_kept_by_mask (cur_idx : list Z) (is_tag_selected : list Flag) :
  select_tagged cur_idx is_tag_selected = kept_by_mask cur_idx is_tag_selected.
Proof.
  unfold kept_by_mask. revert is_tag_selected.
  induction cur_idx as [|idx cur_idx IH]; intros [|flag flags]; try done.
  - symmetry. by apply omap_all_None.
  - cbn [select_tagged length seq]. rewrite <- fmap_S_seq. csimpl.
    rewrite omap_fmap, IH. by destruct (truthy flag).
Qed.

(** *** The stages of [get] *)

Lemma get_unfold r w s :
  0 < page_sz r -> 0 < page_no r ->
  sorting_of_value E (sorting r) = Some s ->
  get E r w =
    match get_sorting E s (sorting_metric r) (src r) (ref r) (hypo r)
            (candidates E r) w with
    | Ok (sorted, w') =>
        match get_pagination sorted (Z.min (page_sz r) MAX_PAGE_SZ) (page_no r) with
        | Ok page =>
            Ok ({| cur_idx := page;
                   n_cur_samples := py_len page;
                   n_samples := py_len (candidates E r);
                   total_examples := Z.of_nat (len (src r)) |}, w')
        | Raise e => Raise e
        end
    | Raise e => Raise e
    end.
Proof.
  intros Hps Hpn Hs. unfold get, M_bind at 1, M_lift at 1.
  destruct (Z.ltb_spec 0 (page_no r)) as [_|?]; [|lia].
  destruct (Z.ltb_spec 0 (page_sz r)) as [_|?]; [|lia].
  cbn. rewrite Hs. unfold M_bind, M_lift, M_ret, candidates.
  destruct (get_sorting _ _ _ _ _ _ _ _) as [[sorted w']|e]; [|done].
  by destruct (get_pagination _ _ _).
Qed.

Lemma get_Ok_inv r w page w' :
  get E r w = Ok (page, w') ->
  0 < page_sz r /\ 0 < page_no r
  /\ exists s sorted,
       sorting_of_value E (sorting r) = Some s
       /\ get_sorting E s (sorting_metric r) (src r) (ref r) (hypo r)
            (candidates E r) w = Ok (sorted, w')
       /\ get_pagination sorted (Z.min (page_sz r) MAX_PAGE_SZ) (page_no r)
          = Ok (cur_idx page)
       /\ n_cur_samples page = py_len (cur_idx page)
       /\ n_samples page = py_len (candidates E r)
       /\ total_examples page = Z.of_nat (len (src r)).
Proof.
  intros Hget.
  destruct (Z.ltb_spec 0 (page_no r)) as [Hpn|Hpn]; cycle 1.
  { unfold get, M_bind, M_lift in Hget.
    destruct (Z.ltb_spec 0 (page_no r)); [lia|]. done. }
  destruct (Z.ltb_spec 0 (page_sz r)) as [Hps|Hps]; cycle 1.
  { unfold get, M_bind, M_lift in Hget.
    destruct (Z.ltb_spec 0 (page_no r)), (Z.ltb_spec 0 (page_sz r)); try lia; done. }
  destruct (sorting_of_value E (sorting r)) as [s|] eqn:Hs; cycle 1.
  { unfold get, M_bind, M_lift in Hget. rewrite Hs in Hget.
    destruct (Z.ltb_spec 0 (page_no r)), (Z.ltb_spec 0 (page_sz r)); try lia; done. }
  rewrite (get_unfold _ _ _ Hps Hpn Hs) in Hget.
  destruct (get_sorting _ _ _ _ _ _ _ _) as [[sorted w1]|e] eqn:Hsort; [|done].
  destruct (get_pagination _ _ _) as [pg|e] eqn:Hpage; [|done].
  injection Hget as <- <-. repeat split; [done..|]. exists s, sorted. done.
Qed.

(** *** Sorting keeps the candidates *)

Lemma sort_by_metric_permutes s sorting_metric ref hypo cur_idx w sorted w' :
  sorters_permute E ->
  sort_by_metric E s sorting_metric ref hypo cur_idx w = Ok (sorted, w') ->
  sorted ≡ₚ cur_idx.
Proof.
  intros HE. unfold sort_by_metric. case_bool_decide.
  - intros Hrun.
    apply M_bind_Ok in Hrun as (_cur_ref & w1 & _ & Hrun).
    apply M_bind_Ok in Hrun as (scores & w2 & _ & Hrun).
    apply M_bind_Ok in Hrun as (rows & w3 & _ & Hrun).
    destruct s; apply M_ret_Ok in Hrun as [-> _]; try done.
    + apply (by_metric_permutes E HE).
    + apply (by_metric_diff_permutes E HE).
  - by intros [-> _]%M_ret_Ok.
Qed.

Lemma get_sorting_permutes s sorting_metric src ref hypo cur_idx w sorted w' :
  sorters_permute E ->
  get_sorting E s sorting_metric src ref hypo cur_idx w = Ok (sorted, w') ->
  sorted ≡ₚ cur_idx.
Proof.
  intros HE. destruct s; cbn [get_sorting];
    try (intros Hrun; eapply sort_by_metric_permutes; by eauto);
    try (case_match; [|by intros [-> _]%M_ret_Ok]);
    try (intros [-> _]%M_ret_Ok); try done;
    try apply (by_len_permutes E HE); try apply (by_str_order_permutes E HE).
  pose proof (random_permutes E HE cur_idx (rng w)) as Hperm.
  destruct (VizSeqRandomSorter_sort E cur_idx (rng w)) as [l g].
  by intros [= <- <-].
Qed.

Lemma score_models_nil sorting_metric pairs _cur_ref scores w :
  exists scores' w',
    score_models E sorting_metric pairs [] _cur_ref scores w = Ok (scores', w').
Proof.
  revert scores w. induction pairs as [|[m t] pairs IH]; intros scores w.
  - by eexists _, _.
  - cbn [score_models _select]. unfold M_bind, M_lift, score_for_sort. apply IH.
Qed.

(** Sorting no candidates succeeds and yields no candidates. *)
Lemma get_sorting_nil s sorting_metric src ref hypo w :
  sorters_permute E ->
  exists w', get_sorting E s sorting_metric src ref hypo [] w = Ok ([], w').
Proof.
  intros HE.
  assert (Hok : exists sorted w',
             get_sorting E s sorting_metric src ref hypo [] w = Ok (sorted, w')).
  { destruct s; cbn [get_sorting]; try (by eexists _, _);
      try (case_match; by eexists _, _).
    all: unfold sort_by_metric; case_bool_decide; [|by eexists _, _].
    all: unfold M_bind at 1, M_lift at 1.
    all: rewrite (mapM_Ok _ (fun _ => []) (text ref)) by done.
    all: unfold M_bind at 1.
    all: destruct (score_models_nil sorting_metric (zip (text_names hypo) (text hypo))
                     ((fun _ => []) <$> text ref) ∅ w) as (sc & w1 & ->).
    all: by eexists _, _. }
  destruct Hok as (sorted & w' & Hok). exists w'. rewrite Hok.
  apply get_sorting_permutes in Hok; [|done].
  apply Permutation_nil_r in Hok. by subst.
Qed.

(** *** Resolving the sorting selector *)

Lemma sorting_of_value_Some sorting s :
  sorting_of_value E sorting = Some s -> value E s = sorting.
Proof.
  unfold sorting_of_value. intros Hlast.
  assert (Hin : s ∈ filter (fun e => value E e = sorting) VizSeqSortingType_members).
  { rewrite last_lookup in Hlast. by eapply list_elem_of_lookup_2. }
  by apply list_elem_of_filter in Hin as [? _].
Qed.

Lemma sorting_of_value_None sorting :
  sorting_of_value E sorting = None <-> forall e, value E e <> sorting.
Proof.
  unfold sorting_of_value. rewrite last_None. split.
  - intros Hnil e He.
    assert (Hin : e ∈ filter (fun e => value E e = sorting) VizSeqSortingType_members).
    { apply list_elem_of_filter. split; [done|].
      unfold VizSeqSortingType_members. destruct e; set_solver. }
    rewrite Hnil in Hin. by apply elem_of_nil in Hin.
  - intros Hne.
    destruct (filter _ VizSeqSortingType_members) as [|x l'] eqn:Hf; [done|].
    assert (Hin : x ∈ filter (fun e => value E e = sorting) VizSeqSortingType_members)
      by (rewrite Hf; left).
    apply list_elem_of_filter in Hin as [Hx _]. by apply Hne in Hx.
Qed.

(** *** Requests *)

(** A request for a page beyond the data returns the last sorted candidate
    alone; the page size that counts is the clamped one. *)
Lemma get_beyond_last_page r w s sorted w' x :
  0 < page_sz r ->
  sorting_of_value E (sorting r) = Some s ->
  get_sorting E s (sorting_metric r) (src r) (ref r) (hypo r) (candidates E r) w
    = Ok (sorted, w') ->
  last sorted = Some x ->
  ceil_div (py_len sorted) (Z.min (page_sz r) MAX_PAGE_SZ) < page_no r ->
  get E r w =
    Ok ({| cur_idx := [x]; n_cur_samples := 1;
           n_samples := py_len (candidates E r);
           total_examples := Z.of_nat (len (src r)) |}, w').
Proof.
  intros Hps Hs Hsort Hlast Hpn.
  assert (Hps' : 0 < Z.min (page_sz r) MAX_PAGE_SZ) by (unfold MAX_PAGE_SZ; lia).
  destruct (ceil_div_covers (py_len sorted) _ Hps') as [Hlo _].
  pose proof (py_len_nonneg sorted).
  assert (Hpn0 : 0 < page_no r) by nia.
  rewrite (get_unfold _ _ _ Hps Hpn0 Hs), Hsort.
  by rewrite (get_pagination_beyond _ _ _ x Hps' Hlast Hpn).
Qed.

(** With the selector on [none], [get] returns the page cut from the
    candidates and leaves the world as it was. *)
Lemma get_unsorted r w :
  0 < page_sz r -> 0 < page_no r ->
  sorting_of_value E (sorting r) = Some none ->
  exists page,
    get E r w = Ok (page, w)
    /\ get_pagination (candidates E r) (Z.min (page_sz r) MAX_PAGE_SZ) (page_no r)
       = Ok (cur_idx page)
    /\ n_cur_samples page = py_len (cur_idx page)
    /\ n_samples page = py_len (candidates E r)
    /\ total_examples page = Z.of_nat (len (src r)).
Proof.
  intros Hps Hpn Hs. rewrite (get_unfold _ _ _ Hps Hpn Hs). cbn [get_sorting].
  unfold M_ret.
  destruct (get_pagination_length (candidates E r)
              (Z.min (page_sz r) MAX_PAGE_SZ) (page_no r))
    as (pg & -> & _); [unfold MAX_PAGE_SZ; lia | done |].
  by eexists.
Qed.

(** Outside the metric sorts the sorting stage always returns, and so does
    a request whose page size, page number and selector are valid. *)
Lemma get_sorting_returns s sorting_metric src ref hypo cur_idx w :
  s <> metric -> s <> metric_diff ->
  exists sorted w',
    get_sorting E s sorting_metric src ref hypo cur_idx w = Ok (sorted, w').
Proof.
  intros Hm Hd. destruct s; cbn [get_sorting]; try done;
    try (by eexists _, _); try (case_match; by eexists _, _).
Qed.

Lemma get_returns r w s :
  0 < page_sz r -> 0 < page_no r ->
  sorting_of_value E (sorting r) = Some s ->
  s <> metric -> s <> metric_diff ->
  exists page w', get E r w = Ok (page, w').
Proof.
  intros Hps Hpn Hs Hm Hd. rewrite (get_unfold _ _ _ Hps Hpn Hs).
  destruct (get_sorting_returns s (sorting_metric r) (src r) (ref r) (hypo r)
              (candidates E r) w Hm Hd) as (sorted & w' & ->).
  destruct (get_pagination_length sorted (Z.min (page_sz r) MAX_PAGE_SZ) (page_no r))
    as (pg & -> & _); [unfold MAX_PAGE_SZ; lia | done |].
  by eexists _, _.
Qed.

(** *** The index pipeline on requests *)

(** With no candidates the index pipeline ends with an empty index list. *)
Lemma get_zero_candidates r w s :
  sorters_permute E ->
  0 < page_sz r -> 0 < page_no r ->
  sorting_of_value E (sorting r) = Some s ->
  candidates E r = [] ->
  get_pagination [] (Z.min (page_sz r) MAX_PAGE_SZ) (page_no r) = Ok []
  /\ exists page w',
       get E r w = Ok (page, w')
       /\ cur_idx page = [] /\ n_cur_samples page = 0 /\ n_samples page = 0.
Proof.
  intros HE Hps Hpn Hs Hcand.
  assert (Hpage : get_pagination [] (Z.min (page_sz r) MAX_PAGE_SZ) (page_no r) = Ok []).
  { apply get_pagination_nil; unfold MAX_PAGE_SZ; lia. }
  split; [done|].
  rewrite (get_unfold _ _ _ Hps Hpn Hs), Hcand.
  destruct (get_sorting_nil s (sorting_metric r) (src r) (ref r) (hypo r) w HE)
    as (w' & ->).
  rewrite Hpage. by eexists _, _.
Qed.

(** C3. The page returned for a valid request holds at most
    [min(page_sz, n_samples)] examples, and never a negative number. *)
Theorem page_count_bounded r w page w' :
  sorters_permute E ->
  0 < page_sz r -> 0 < page_no r ->
  get E r w = Ok (page, w') ->
  0 <= n_cur_samples page <= Z.min (page_sz r) (n_samples page).
Proof.
  intros HE Hps Hpn Hget.
  apply get_Ok_inv in Hget
    as (_ & _ & s & sorted & _ & Hsort & Hpage & -> & -> & _).
  apply get_sorting_permutes in Hsort; [|done].
  destruct (get_pagination_length sorted (Z.min (page_sz r) MAX_PAGE_SZ) (page_no r))
    as (pg & Hpg & Hlen); [unfold MAX_PAGE_SZ; lia | done |].
  rewrite Hpage in Hpg. injection Hpg as <-.
  unfold py_len in *. rewrite <- (Permutation_length Hsort). lia.
Qed.

(** With a list for a mask, the index pipeline raises [AssertionError]
    exactly when the page size or the page number is not positive, or the
    sorting selector is the value of no enum member. *)
Lemma get_index_asserts_iff r w :
  get E r w = Raise AssertionError
  <-> page_sz r <= 0 \/ page_no r <= 0 \/ (forall e, value E e <> sorting r).
Proof.
  rewrite <- sorting_of_value_None.
  destruct (Z.ltb_spec 0 (page_no r)) as [Hpn|Hpn]; cycle 1.
  { unfold get, M_bind, M_lift.
    destruct (Z.ltb_spec 0 (page_no r)); [lia|]. cbn. split; [auto | done]. }
  destruct (Z.ltb_spec 0 (page_sz r)) as [Hps|Hps]; cycle 1.
  { unfold get, M_bind, M_lift.
    destruct (Z.ltb_spec 0 (page_no r)), (Z.ltb_spec 0 (page_sz r)); try lia.
    cbn. split; [auto | done]. }
  destruct (sorting_of_value E (sorting r)) as [s|] eqn:Hs; cycle 1.
  { unfold get, M_bind, M_lift. rewrite Hs.
    destruct (Z.ltb_spec 0 (page_no r)), (Z.ltb_spec 0 (page_sz r)); try lia.
    cbn. split; [auto | done]. }
  rewrite (get_unfold _ _ _ Hps Hpn Hs). split; [|intros [?|[?|?]]; [lia|lia|done]].
  pose proof (get_sorting_no_assert s (sorting_metric r) (src r) (ref r) (hypo r)
                (candidates E r) w) as Hsort.
  destruct (get_sorting _ _ _ _ _ _ _ _) as [[sorted w']|e]; [|by intros [= ->]].
  destruct (get_pagination_length sorted (Z.min (page_sz r) MAX_PAGE_SZ) (page_no r))
    as (pg & -> & _); [unfold MAX_PAGE_SZ; lia | done | done].
Qed.

(** With an unregistered sorting metric the metric sorts leave the index
    pipeline as the selector [none] does. *)
Lemma get_unregistered_metric_sort r w s :
  0 < page_sz r -> 0 < page_no r ->
  sorting_of_value E (sorting r) = Some s ->
  s = metric \/ s = metric_diff ->
  sorting_metric r ∉ get_scorer_ids E ->
  get_sorting E s (sorting_metric r) (src r) (ref r) (hypo r) (candidates E r) w
    = Ok (candidates E r, w)
  /\ exists page,
       get E r w = Ok (page, w)
       /\ get_pagination (candidates E r) (Z.min (page_sz r) MAX_PAGE_SZ) (page_no r)
          = Ok (cur_idx page)
       /\ n_samples page = py_len (candidates E r).
Proof.
  intros Hps Hpn Hs Hmetric Hunreg.
  assert (Hsort : get_sorting E s (sorting_metric r) (src r) (ref r) (hypo r)
                    (candidates E r) w = Ok (candidates E r, w)).
  { destruct Hmetric as [-> | ->]; cbn [get_sorting]; unfold sort_by_metric;
      by rewrite bool_decide_eq_false_2. }
  split; [done|].
  rewrite (get_unfold _ _ _ Hps Hpn Hs), Hsort.
  destruct (get_pagination_length (candidates E r)
              (Z.min (page_sz r) MAX_PAGE_SZ) (page_no r))
    as (pg & Hpg & _); [unfold MAX_PAGE_SZ; lia | done |].
  rewrite Hpg. by eexists.
Qed.

(** C8. With tag filtering on, the mask is applied to the result of the
    query filter, position by position: the candidates are exactly the
    query-filtered indices whose position carries a truthy mask entry, and
    they are what [get] counts in [n_samples]. *)
Theorem tag_filter_follows_query_positions r :
  filter_by_tags r = true ->
  candidates E r
    = kept_by_mask (get_query E (src r) (ref r) (query r)) (is_tag_selected r)
  /\ forall w page w',
       get E r w = Ok (page, w') ->
       n_samples page
       = py_len (kept_by_mask (get_query E (src r) (ref r) (query r))
                              (is_tag_selected r)).
Proof.
  intros Hon.
  assert (Hcand : candidates E r
                  = kept_by_mask (get_query E (src r) (ref r) (query r))
                                 (is_tag_selected r)).
  { unfold candidates, get_filter_by_tags. rewrite Hon.
    apply select_tagged_kept_by_mask. }
  split; [done|]. intros w page w' Hget.
  apply get_Ok_inv in Hget as (_ & _ & s & sorted & _ & _ & _ & _ & -> & _).
  by rewrite Hcand.
Qed.

(** C9. The query stage follows the fallback chain: the filter runs on the
    source text when the source has text, else on the reference text when
    the reference has text, and otherwise the candidates are all the indices
    [0 .. len(src) - 1] in order. *)
Theorem query_fallback_chain (src ref : VizSeqDataSources) (query : string) :
  (has_text src = true ->
   get_query E src ref query = VizSeqFilter_filter E (text src) query)
  /\ (has_text src = false -> has_text ref = true ->
      get_query E src ref query = VizSeqFilter_filter E (text ref) query)
  /\ (has_text src = false -> has_text ref = false ->
      get_query E src ref query = Z.of_nat <$> seq 0 (len src)
      /\ forall i : Z, i ∈ get_query E src ref query <-> 0 <= i < Z.of_nat (len src)).
Proof.
  unfold get_query. split; [|split].
  - by intros ->.
  - by intros -> ->.
  - intros -> ->. split; [done|]. intros i. unfold py_range.
    rewrite list_elem_of_fmap. split.
    + intros (k & -> & Hk). apply elem_of_seq in Hk. lia.
    + intros Hi. exists (Z.to_nat i). split; [lia|]. apply elem_of_seq. lia.
Qed.

End PageViewFacts.

(** ** The sample deployment *)

Lemma sample_env_permutes : sorters_permute sample_env.
Proof.
  split; intros; cbn; try done; apply reverse_Permutation.
Qed.

Example scenario_25_page_3 :
  get_pagination (py_range 25) 10 3 = Ok [20; 21; 22; 23; 24].
Proof. reflexivity. Qed.

Example scenario_5_page_1 :
  get_pagination (py_range 5) 10 1 = Ok [0; 1; 2; 3; 4].
Proof. reflexivity. Qed.

Example sample_query_then_tags :
  get sample_env (sample_request "a" 0 "bleu" 10 1 [true; false; true] true) sample_world
  = Ok ({| cur_idx := [0; 3]; n_cur_samples := 2; n_samples := 2; total_examples := 5 |},
        sample_world).
Proof. reflexivity. Qed.

Example sample_metric_sort_scores_every_model :
  get sample_env (sample_request "a" 6 "bleu" 2 1 [] false) sample_world
  = Ok ({| cur_idx := [3; 1]; n_cur_samples := 2; n_samples := 3; total_examples := 5 |},
        {| rng := 0%nat;
           score_log := [{| sc_metric := "bleu"; sc_model := "model" |}] |}).
Proof. vm_compute. reflexivity. Qed.

Example sample_page_size_clamped :
  n_cur_samples <$> (fst <$> get sample_env
    {| src := sample_src; ref := sample_ref; hypo := sample_hypo;
       page_sz := 1000; page_no := 2; query := "a"; sorting := 0;
       sorting_metric := "bleu"; is_tag_selected := @nil bool;
       filter_by_tags := false |} sample_world)
  = Ok 1.
Proof. reflexivity. Qed.

Lemma page_count_bounded_witness :
  let r := sample_request "a" 1 "bleu" 2 2 [] false in
  let page := {| cur_idx := [0]; n_cur_samples := 1; n_samples := 3;
                 total_examples := 5 |} in
  get sample_env r sample_world = Ok (page, {| rng := 1%nat; score_log := [] |})
  /\ 0 <= n_cur_samples page <= Z.min (page_sz r) (n_samples page).
Proof.
  intros r page.
  assert (Hget : get sample_env r sample_world
                 = Ok (page, {| rng := 1%nat; score_log := [] |})) by reflexivity.
  split; [exact Hget|].
  apply (page_count_bounded sample_env r sample_world page
           {| rng := 1%nat; score_log := [] |} sample_env_permutes);
    [reflexivity | reflexivity | exact Hget].
Defined.

Lemma tag_filter_follows_query_positions_witness :
  let r := sample_request "a" 0 "bleu" 10 1 [true; false; true] true in
  candidates sample_env r
    = kept_by_mask (get_query sample_env (src r) (ref r) (query r)) (is_tag_selected r)
  /\ forall w page w',
       get sample_env r w = Ok (page, w') ->
       n_samples page
       = py_len (kept_by_mask (get_query sample_env (src r) (ref r) (query r))
                              (is_tag_selected r)).
Proof.
  intros r. apply (tag_filter_follows_query_positions sample_env r). reflexivity.
Defined.

Example sample_mask_is_positional :
  let r := sample_request "a" 0 "bleu" 10 1 [true; false; true] true in
  get_query sample_env (src r) (ref r) (query r) = [0; 1; 3]
  /\ candidates sample_env r = [0; 3].
Proof. split; reflexivity. Qed.

Lemma query_fallback_chain_witness :
  get_query sample_env sample_src sample_ref "a" = [0; 1; 3]
  /\ get_query sample_env sample_no_text sample_ref "r" = [0; 1; 2; 3; 4]
  /\ get_query sample_env sample_no_text sample_no_text "r" = [0; 1; 2; 3; 4].
Proof.
  split; [|split].
  - rewrite (proj1 (query_fallback_chain sample_env sample_src sample_ref "a")
               eq_refl).
    reflexivity.
  - rewrite (proj1 (proj2 (query_fallback_chain sample_env sample_no_text
                             sample_ref "r")) eq_refl eq_refl).
    reflexivity.
  - rewrite (proj1 (proj2 (proj2 (query_fallback_chain sample_env sample_no_text
                                    sample_no_text "r")) eq_refl eq_refl)).
    reflexivity.
Defined.

Example sample_bad_page_size :
  get sample_env (sample_request "a" 0 "bleu" 0 1 [] false) sample_world
  = Raise AssertionError.
Proof. reflexivity. Qed.

Example sample_unknown_selector :
  get sample_env (sample_request "a" 8 "bleu" 10 1 [] false) sample_world
  = Raise AssertionError.
Proof. reflexivity. Qed.

(** * Further properties *)

(** ** More on the slicing helper *)

Lemma py_getitem_too_negative {A} (l : list A) (i : Z) :
  i < - py_len l -> py_getitem l i = Raise IndexError.
Proof.
  intros Hi. unfold py_getitem. pose proof (py_len_nonneg l).
  destruct (Z.ltb_spec i 0); [|lia].
  destruct (Z.leb_spec 0 (i + py_len l)); [lia|]. reflexivity.
Qed.

Lemma py_getitem_from_end {A} (l : list A) (i : Z) :
  - py_len l <= i -> i < 0 ->
  exists x, l !! Z.to_nat (i + py_len l) = Some x /\ py_getitem l i = Ok x.
Proof.
  intros Hlo Hneg. unfold py_getitem.
  destruct (Z.ltb_spec i 0); [|lia].
  destruct (Z.leb_spec 0 (i + py_len l)); [|lia].
  destruct (Z.ltb_spec (i + py_len l) (py_len l)); [|lia]. simpl.
  destruct (l !! Z.to_nat (i + py_len l)) as [x|] eqn:Hx; [eauto|].
  apply lookup_ge_None in Hx. unfold py_len in *. lia.
Qed.

(** X1. [_select] raises exactly when some index lies below [-len(a_list)];
    the exception is then [IndexError], and it is the only one it raises. *)
Theorem select_raises_iff_below_minus_len {A} (xs : list A) (indices : list Z) :
  (_select xs indices = Raise IndexError
   <-> Exists (fun i => i < - py_len xs) indices)
  /\ (forall e, _select xs indices = Raise e -> e = IndexError).
Proof.
  pose proof (py_len_nonneg xs) as Hn.
  induction indices as [|i rest [IH1 IH2]].
  - split; [|done]. split; [done|]. by intros ?%Exists_nil.
  - cbn [_select]. rewrite Exists_cons.
    destruct (Z.ltb_spec i (py_len xs)) as [Hlt|Hge].
    + destruct (Z.lt_ge_cases i (- py_len xs)) as [Hlow|Hok].
      { rewrite py_getitem_too_negative by done. cbn.
        split; [split; auto|]. by intros e [= <-]. }
      assert (Hget : exists x, py_getitem xs i = Ok x).
      { destruct (Z.lt_ge_cases i 0).
        - destruct (py_getitem_from_end xs i) as (x & _ & ->); eauto.
        - destruct (py_getitem_nonneg xs i) as (x & _ & ->); eauto. }
      destruct Hget as (x & ->). cbn.
      destruct (_select xs rest) as [ys|e] eqn:Hrest; cbn.
      * split; [|done]. split; [done|]. intros [?|Hex]; [lia|].
        by apply IH1 in Hex.
      * split.
        -- split; [intros [= ->]; right; by apply IH1|].
           intros _. f_equal. by apply IH2.
        -- intros e' [= <-]. by apply IH2.
    + split; [|done]. rewrite IH1. split; [auto|]. intros [?|?]; [lia|done].
Qed.

Lemma _select_from_end_omap {A} (xs : list A) (indices : list Z) :
  Forall (fun i => - py_len xs <= i) indices ->
  _select xs indices =
    Ok (omap (fun i => xs !! Z.to_nat (if i <? 0 then i + py_len xs else i))
             indices).
Proof.
  induction 1 as [|i rest Hi _ IH]; [reflexivity|].
  cbn [_select omap list_omap]. rewrite IH.
  destruct (Z.ltb_spec i (py_len xs)) as [Hlt|Hge].
  - destruct (Z.ltb_spec i 0) as [Hneg|Hpos].
    + destruct (py_getitem_from_end xs i Hi Hneg) as (x & -> & ->). reflexivity.
    + destruct (py_getitem_nonneg xs i Hpos Hlt) as (x & -> & ->). reflexivity.
  - pose proof (py_len_nonneg xs).
    destruct (Z.ltb_spec i 0) as [Hneg|Hpos]; [lia|].
    replace (xs !! Z.to_nat i) with (@None A); [reflexivity|].
    symmetry. apply lookup_ge_None. unfold py_len in Hge. lia.
Qed.

(** X2. An index [i] with [-len(a_list) <= i < 0] is not skipped: it reads
    from the end, [a_list[len(a_list) + i]].  On indices in that range
    [_select] returns one element per index. *)
Theorem select_negative_reads_from_end {A} (xs : list A) (indices : list Z) :
  Forall (fun i => - py_len xs <= i < 0) indices ->
  exists ys,
    _select xs indices = Ok ys
    /\ Forall2 (fun i y => xs !! Z.to_nat (py_len xs + i) = Some y) indices ys.
Proof.
  intros Hall. induction Hall as [|i rest [Hlo Hneg] _ (ys & Hsel & Hys)].
  - exists []. split; [reflexivity | constructor].
  - cbn [_select]. destruct (Z.ltb_spec i (py_len xs)) as [_|?]; [|lia].
    destruct (py_getitem_from_end xs i Hlo Hneg) as (x & Hx & ->).
    rewrite Hsel. exists (x :: ys). split; [reflexivity|].
    constructor; [|done]. by rewrite Z.add_comm.
Qed.

Lemma select_negative_reads_from_end_witness :
  exists ys,
    _select ["a"; "b"; "c"]%string [-1; -3] = Ok ys
    /\ Forall2 (fun i y => ["a"; "b"; "c"]%string
                             !! Z.to_nat (py_len ["a"; "b"; "c"]%string + i) = Some y)
               [-1; -3] ys.
Proof.
  apply (select_negative_reads_from_end ["a"; "b"; "c"]%string [-1; -3]).
  repeat constructor; vm_compute; congruence.
Defined.

Lemma omap_lookup_range {A} (xs : list A) (n : nat) :
  omap (fun i => xs !! Z.to_nat i) (py_range n) = take n xs.
Proof.
  unfold py_range. rewrite omap_fmap.
  induction n as [|n IH]; [by rewrite take_0|].
  rewrite seq_S, omap_app, IH. cbn. rewrite Nat2Z.id.
  destruct (xs !! n) as [x|] eqn:Hx.
  - by rewrite (take_S_r _ _ _ Hx).
  - apply lookup_ge_None in Hx. rewrite app_nil_r, !take_ge by lia. done.
Qed.

(** X3. Selecting the indices [range(n)] gives the first [n] elements:
    the whole list when [n >= len(a_list)], whatever the excess. *)
Theorem select_range_is_prefix {A} (xs : list A) (n : nat) :
  _select xs (py_range n) = Ok (take n xs).
Proof.
  rewrite _select_nonneg_omap, omap_lookup_range; [done|].
  unfold py_range. apply Forall_fmap, Forall_forall. intros k _. cbn. lia.
Qed.

(** X4. [_select] distributes over the concatenation of index lists: the
    result for [a + b] is the result for [a] followed by the result for
    [b], and it raises as soon as one of the two does. *)
Theorem select_app {A} (xs : list A) (a b : list Z) :
  _select xs (a ++ b) =
    (ys1 ← _select xs a; ys2 ← _select xs b; Ok (ys1 ++ ys2)).
Proof.
  induction a as [|i a IH]; cbn [_select app].
  - cbn. by destruct (_select xs b).
  - destruct (i <? py_len xs); [|done].
    destruct (py_getitem xs i) as [x|e]; cbn; [|done].
    rewrite IH. destruct (_select xs a) as [ys1|e]; cbn; [|done].
    by destruct (_select xs b).
Qed.

(** X5. Whatever the indices, a result of [_select] holds only elements of
    the list, and at most one per index. *)
Theorem select_elements_from_source {A} (xs : list A) (indices : list Z) (ys : list A) :
  _select xs indices = Ok ys ->
  (forall y, y ∈ ys -> y ∈ xs) /\ (length ys <= length indices)%nat.
Proof.
  revert ys. induction indices as [|i rest IH]; intros ys; cbn [_select].
  - intros [= <-]. split; [by intros y ?%elem_of_nil | done].
  - destruct (i <? py_len xs).
    + destruct (py_getitem xs i) as [x|e] eqn:Hx; cbn; [|done].
      destruct (_select xs rest) as [ys'|e]; cbn; [|done]. intros [= <-].
      destruct (IH ys' eq_refl) as [Hin Hlen]. split; [|simpl; lia].
      intros y [->|Hy]%elem_of_cons; [|by apply Hin].
      unfold py_getitem in Hx.
      repeat case_match; simplify_eq; by eapply list_elem_of_lookup_2.
    + intros Hrest. destruct (IH ys Hrest) as [Hin Hlen]. split; [done|simpl; lia].
Qed.

Lemma select_elements_from_source_witness :
  (forall y, y ∈ ["c"; "a"]%string -> y ∈ ["a"; "b"; "c"]%string)
  /\ (length ["c"; "a"]%string <= length [(-1)%Z; 7%Z; 0%Z])%nat.
Proof.
  apply (select_elements_from_source ["a"; "b"; "c"]%string [-1; 7; 0]).
  reflexivity.
Defined.

Lemma select_read_at {A} (xs : list A) (indices : list Z) (ys : list A) :
  Forall (fun i => 0 <= i) indices -> read_at xs indices ys ->
  _select xs indices = Ok ys.
Proof.
  intros Hnn Hread. revert Hnn.
  induction Hread as [|i y rest ys Hy _ IH]; intros Hnn; [reflexivity|].
  apply Forall_cons in Hnn as [Hi Hnn]. cbn [_select].
  pose proof (lookup_lt_Some _ _ _ Hy) as Hlt.
  destruct (Z.ltb_spec i (py_len xs)) as [Hin|?]; [|unfold py_len in *; lia].
  destruct (py_getitem_nonneg xs i Hi Hin) as (x & Hx & ->).
  rewrite IH by done. cbn. congruence.
Qed.

Lemma in_bounds_read_at {A} (xs : list A) (indices : list Z) :
  in_bounds xs indices ->
  exists ys, _select xs indices = Ok ys /\ read_at xs indices ys.
Proof.
  intros Hb. induction Hb as [|i rest [Hi Hlt] _ (ys & Hsel & Hread)].
  - exists []. split; [reflexivity | constructor].
  - cbn [_select]. destruct (Z.ltb_spec i (py_len xs)) as [_|?]; [|lia].
    destruct (py_getitem_nonneg xs i Hi Hlt) as (x & Hx & ->).
    rewrite Hsel. exists (x :: ys). split; [reflexivity | by constructor].
Qed.

Lemma in_bounds_nonneg {A} (xs : list A) (indices : list Z) :
  in_bounds xs indices -> Forall (fun i => 0 <= i) indices.
Proof. unfold in_bounds. intros Hb. eapply Forall_impl; [done|]. cbn. lia. Qed.

Lemma in_bounds_sublist {A} (xs : list A) (l1 l2 : list Z) :
  l1 `sublist_of` l2 -> in_bounds xs l2 -> in_bounds xs l1.
Proof.
  intros Hsub Hb. apply Forall_forall. intros i Hi.
  eapply (proj1 (Forall_forall _ _) Hb), elem_of_submseteq; [done|].
  by apply sublist_submseteq.
Qed.

(** X6. When every index is a position of the list, selecting commutes
    with slicing: [_select] returns one element per index, and selecting at
    any slice of the indices gives the same slice of the selection. *)
Theorem select_commutes_with_slice {A} (xs : list A) (indices : list Z) :
  in_bounds xs indices ->
  exists ys,
    _select xs indices = Ok ys
    /\ length ys = length indices
    /\ forall start stop,
         _select xs (py_slice indices start stop) = Ok (py_slice ys start stop).
Proof.
  intros Hb. destruct (in_bounds_read_at xs indices Hb) as (ys & Hsel & Hread).
  pose proof (Forall2_length _ _ _ Hread) as Hlen.
  exists ys. repeat split; [done..|]. intros start stop.
  apply select_read_at.
  - unfold py_slice. apply in_bounds_nonneg with (xs := xs).
    eapply in_bounds_sublist; [|done].
    etrans; [apply sublist_take | apply sublist_drop].
  - unfold py_slice, py_len. rewrite Hlen.
    by apply Forall2_take, Forall2_drop.
Qed.

Lemma select_commutes_with_slice_witness :
  exists ys,
    _select ["a"; "b"; "c"]%string [2; 0; 1; 1] = Ok ys
    /\ length ys = length [2; 0; 1; 1]
    /\ forall start stop,
         _select ["a"; "b"; "c"]%string (py_slice [2; 0; 1; 1] start stop)
         = Ok (py_slice ys start stop).
Proof.
  apply (select_commutes_with_slice ["a"; "b"; "c"]%string [2; 0; 1; 1]).
  repeat constructor; vm_compute; congruence.
Defined.

(** ** More on the paginator *)

(** X7. The range of the paginator is never empty and starts at a valid
    position whenever there is one; its end is not clamped: it is at least
    [page_sz * page_no - 1], and lies beyond the last position [n - 1]
    exactly when the page is not full.  With no items the start is [-1]. *)
Theorem start_end_shape (n ps pn : Z) :
  0 < ps -> 0 < pn ->
  exists start_idx end_idx,
    _get_start_end_idx n ps pn = Ok (start_idx, end_idx)
    /\ start_idx <= end_idx
    /\ start_idx <= n - 1
    /\ (1 <= n -> 0 <= start_idx)
    /\ (n <= 0 -> start_idx = n - 1)
    /\ ps * pn - 1 <= end_idx
    /\ (n - 1 < end_idx <-> n < ps * pn).
Proof.
  intros Hps Hpn. rewrite _get_start_end_idx_Ok by done.
  assert (0 <= ps * (pn - 1)) by nia.
  eexists _, _. split; [reflexivity|]. repeat split; lia.
Qed.

Lemma start_end_shape_witness :
  exists start_idx end_idx,
    _get_start_end_idx 0 10 2 = Ok (start_idx, end_idx)
    /\ start_idx <= end_idx
    /\ start_idx <= 0 - 1
    /\ (1 <= 0 -> 0 <= start_idx)
    /\ (0 <= 0 -> start_idx = 0 - 1)
    /\ 10 * 2 - 1 <= end_idx
    /\ (0 - 1 < end_idx <-> 0 < 10 * 2).
Proof. apply (start_end_shape 0 10 2); lia. Defined.

(** X8. While the next page still starts inside the data, a page spans
    exactly [page_sz] positions and the next page starts right after its
    end. *)
Theorem consecutive_pages_adjacent (n ps pn : Z) :
  0 < ps -> 0 < pn -> ps * pn <= n - 1 ->
  exists start_idx end_idx next_start next_end,
    _get_start_end_idx n ps pn = Ok (start_idx, end_idx)
    /\ _get_start_end_idx n ps (pn + 1) = Ok (next_start, next_end)
    /\ end_idx - start_idx + 1 = ps
    /\ next_start = end_idx + 1.
Proof.
  intros Hps Hpn Hin. rewrite !_get_start_end_idx_Ok by lia.
  eexists _, _, _, _. split; [reflexivity|]. split; [reflexivity|].
  replace (pn + 1 - 1) with pn by lia. split; nia.
Qed.

Lemma consecutive_pages_adjacent_witness :
  exists start_idx end_idx next_start next_end,
    _get_start_end_idx 25 10 2 = Ok (start_idx, end_idx)
    /\ _get_start_end_idx 25 10 (2 + 1) = Ok (next_start, next_end)
    /\ end_idx - start_idx + 1 = 10
    /\ next_start = end_idx + 1.
Proof. apply (consecutive_pages_adjacent 25 10 2); lia. Defined.

(** ** Enumerating a data column *)

Lemma get_enum_imap {V} (d : list (PyItem V)) :
  get_enum (Some d)
  = imap (fun i e => inl (Z.of_nat i) :: (inr <$> item_values e)) d.
Proof. cbn. apply imap_ext. by intros i [items|v] _. Qed.

Lemma row_values_cons {V} (c : Z + V) (vs : list V) :
  row_values (c :: (inr <$> vs)) = vs.
Proof.
  unfold row_values. cbn. rewrite drop_0.
  induction vs as [|v vs IH]; [done|]. csimpl. by rewrite IH.
Qed.

Lemma row_values_get_enum {V} (d : list (PyItem V)) :
  row_values <$> get_enum (Some d) = item_values <$> d.
Proof.
  rewrite get_enum_imap. apply list_eq. intros k.
  rewrite !list_lookup_fmap, list_lookup_imap.
  destruct (d !! k) as [e|]; [|done].
  exact (f_equal Some (row_values_cons _ (item_values e))).
Qed.

(** X9. [get_enum] gives no row for [None] and one row per element
    otherwise; row [k] starts with the position [k] and then holds the
    values of the [k]-th element in order: its items when it is a list or
    a tuple, itself when it is not. *)
Theorem get_enum_rows {V} (d : list (PyItem V)) :
  get_enum (@None (list (PyItem V))) = []
  /\ length (get_enum (Some d)) = length d
  /\ forall (k : nat) (e : PyItem V),
       d !! k = Some e ->
       exists row,
         get_enum (Some d) !! k = Some row
         /\ head row = Some (inl (Z.of_nat k))
         /\ row_values row = item_values e
         /\ length row = S (length (item_values e)).
Proof.
  split; [done|]. rewrite get_enum_imap. split; [by rewrite length_imap|].
  intros k e Hk. rewrite list_lookup_imap, Hk.
  eexists. split; [reflexivity|]. split; [reflexivity|].
  split; [apply row_values_cons | cbn [length]; by rewrite length_fmap].
Qed.

Lemma get_enum_of_values {V} (d : list (PyItem V)) :
  get_enum (Some d)
  = imap (fun i vs => inl (Z.of_nat i) :: (inr <$> vs)) (item_values <$> d).
Proof. rewrite get_enum_imap, imap_fmap. by apply imap_ext. Qed.

(** X10. The rows do not tell a one-element tuple from a bare value: two
    columns give the same rows exactly when their elements hold the same
    values in the same order. *)
Theorem get_enum_same_rows_iff {V} (d1 d2 : list (PyItem V)) :
  get_enum (Some d1) = get_enum (Some d2)
  <-> item_values <$> d1 = item_values <$> d2.
Proof.
  split.
  - intros Heq. by rewrite <- !row_values_get_enum, Heq.
  - intros Heq. by rewrite !get_enum_of_values, Heq.
Qed.

Example get_enum_tuple_or_scalar :
  get_enum (Some [PySeq ["a"; "b"]; PyScalar "c"; PySeq []]%string)
  = [[inl 0; inr "a"; inr "b"]; [inl 1; inr "c"]; [inl 2]]%string
  /\ get_enum (Some [PyScalar "c"]%string) = get_enum (Some [PySeq ["c"]]%string).
Proof. split; reflexivity. Qed.

(** ** More on the index pipeline of [get] *)

Section PageViewMore.
Context {Score Rng Flag : Type} `{!Truthy Flag}.
Variable E : Env Score Rng.
Implicit Types (w : World Rng) (r : Request Flag).

(** X11. A page size above [MAX_PAGE_SZ] is served exactly as
    [MAX_PAGE_SZ] is: same page, same counts, same effects, same errors. *)
Theorem get_page_size_clamped r w :
  MAX_PAGE_SZ <= page_sz r ->
  get E r w = get E (with_page_sz r MAX_PAGE_SZ) w.
Proof.
  intros Hbig. unfold get, with_page_sz. cbn.
  assert (H0 : (0 <? page_sz r) = true) by (apply Z.ltb_lt; unfold MAX_PAGE_SZ in *; lia).
  rewrite H0. replace (Z.min (page_sz r) MAX_PAGE_SZ) with MAX_PAGE_SZ by lia.
  reflexivity.
Qed.

Lemma get_page_within_sorted r w page w' :
  get E r w = Ok (page, w') ->
  exists s sorted,
    get_sorting E s (sorting_metric r) (src r) (ref r) (hypo r) (candidates E r) w
      = Ok (sorted, w')
    /\ cur_idx page `sublist_of` sorted.
Proof.
  intros Hget.
  apply get_Ok_inv in Hget
    as (Hps & Hpn & s & sorted & _ & Hsort & Hpage & _).
  exists s, sorted. split; [done|].
  rewrite get_pagination_take_drop in Hpage by (unfold MAX_PAGE_SZ; lia).
  injection Hpage as <-. etrans; [apply sublist_take | apply sublist_drop].
Qed.

(** X12. With sorters that permute their input, a page holds only
    candidates, each at most as often as it is a candidate: sorting and
    pagination never bring back an index the filters removed, and a
    duplicate-free candidate list gives a duplicate-free page. *)
Theorem page_within_candidates r w page w' :
  sorters_permute E ->
  get E r w = Ok (page, w') ->
  cur_idx page ⊆+ candidates E r
  /\ (forall i, i ∈ cur_idx page -> i ∈ candidates E r)
  /\ (NoDup (candidates E r) -> NoDup (cur_idx page)).
Proof.
  intros HE Hget.
  destruct (get_page_within_sorted _ _ _ _ Hget) as (s & sorted & Hsort & Hsub).
  apply get_sorting_permutes in Hsort; [|done].
  assert (Hms : cur_idx page ⊆+ candidates E r).
  { etrans; [by apply sublist_submseteq | by apply Permutation_submseteq]. }
  split; [done|]. split.
  - intros i Hi. by eapply elem_of_submseteq.
  - intros Hnd. eapply sublist_NoDup; [|done]. by rewrite Hsort.
Qed.

Lemma get_of_kept_order r w s :
  0 < page_sz r -> 0 < page_no r ->
  sorting_of_value E (sorting r) = Some s ->
  get_sorting E s (sorting_metric r) (src r) (ref r) (hypo r) (candidates E r) w
    = Ok (candidates E r, w) ->
  exists page,
    get E r w = Ok (page, w)
    /\ get_pagination (candidates E r) (Z.min (page_sz r) MAX_PAGE_SZ) (page_no r)
       = Ok (cur_idx page).
Proof.
  intros Hps Hpn Hs Hsort. rewrite (get_unfold _ _ _ _ Hps Hpn Hs), Hsort.
  destruct (get_pagination_length (candidates E r)
              (Z.min (page_sz r) MAX_PAGE_SZ) (page_no r))
    as (pg & -> & _); [unfold MAX_PAGE_SZ; lia | done |].
  by eexists.
Qed.

Lemma get_sorting_source_without_text s sorting_metric src ref hypo cur_idx w :
  s = src_len \/ s = src_alphabetical ->
  has_text src = false ->
  get_sorting E s sorting_metric src ref hypo cur_idx w = Ok (cur_idx, w).
Proof.
  intros [-> | ->] Hno; cbn [get_sorting]; by rewrite Hno.
Qed.


Lemma score_models_log sorting_metric pairs cur_idx _cur_ref scores w scores' w' :
  score_models E sorting_metric pairs cur_idx _cur_ref scores w = Ok (scores', w') ->
  rng w' = rng w
  /\ score_log w' =
       score_log w
       ++ ((fun p => {| sc_metric := sorting_metric; sc_model := p.1 |}) <$> pairs).
Proof.
  revert scores w. induction pairs as [|[m t] pairs IH]; intros scores w.
  - intros [_ ->]%M_ret_Ok. by rewrite app_nil_r.
  - cbn [score_models]. intros Hrun.
    apply M_bind_Ok in Hrun as (hyp & w1 & [_ ->]%M_lift_Ok & Hrun).
    apply M_bind_Ok in Hrun as (sent & w2 & Hscore & Hrun).
    unfold score_for_sort in Hscore. injection Hscore as _ <-.
    apply IH in Hrun as [-> ->]. cbn. by rewrite <- app_assoc.
Qed.

(** X15. A metric sort with a registered metric that succeeds has run the
    scorer once per pair of [zip(models, hypo.text)], in that order, and
    nothing else: a model name without a channel is not scored, and the
    random generator is untouched. *)
Theorem metric_sort_scores_each_pair_once
    s sorting_metric src ref hypo cur_idx w sorted w' :
  s = metric \/ s = metric_diff ->
  sorting_metric ∈ get_scorer_ids E ->
  get_sorting E s sorting_metric src ref hypo cur_idx w = Ok (sorted, w') ->
  rng w' = rng w
  /\ score_log w' =
       score_log w
       ++ ((fun p => {| sc_metric := sorting_metric; sc_model := p.1 |})
             <$> zip (text_names hypo) (text hypo)).
Proof.
  intros Hs Hreg Hrun.
  assert (Hmetric : sort_by_metric E s sorting_metric ref hypo cur_idx w
                    = Ok (sorted, w')) by (by destruct Hs as [-> | ->]).
  clear Hrun. unfold sort_by_metric in Hmetric.
  rewrite bool_decide_eq_true_2 in Hmetric by done.
  apply M_bind_Ok in Hmetric as (_cur_ref & w1 & [_ ->]%M_lift_Ok & Hrun).
  apply M_bind_Ok in Hrun as (scores & w2 & Hscore & Hrun).
  apply M_bind_Ok in Hrun as (rows & w3 & [_ ->]%M_lift_Ok & Hrun).
  apply score_models_log in Hscore.
  by destruct Hs as [-> | ->]; apply M_ret_Ok in Hrun as [_ ->].
Qed.

Lemma select_tagged_sublist (cur_idx : list Z) (mask : list Flag) :
  select_tagged cur_idx mask `sublist_of` cur_idx
  /\ (length (select_tagged cur_idx mask) <= length mask)%nat.
Proof.
  revert mask. induction cur_idx as [|idx cur_idx IH]; intros [|flag flags];
    cbn [select_tagged]; try (split; [apply sublist_nil_l | simpl; lia]).
  destruct (IH flags) as [Hsub Hlen]. destruct (truthy flag).
  - split; [by apply sublist_skip | simpl; lia].
  - split; [by apply sublist_cons | simpl; lia].
Qed.

(** X16. The tag filter only removes candidates: what it keeps is a
    sub-list of the query result, in the same order, and never longer than
    the mask; with the default empty mask nothing is kept. *)
Theorem tag_filter_only_removes r :
  candidates E r `sublist_of` get_query E (src r) (ref r) (query r)
  /\ (filter_by_tags r = true ->
      (length (candidates E r) <= length (is_tag_selected r))%nat
      /\ (is_tag_selected r = [] -> candidates E r = [])).
Proof.
  unfold candidates, get_filter_by_tags.
  destruct (select_tagged_sublist (get_query E (src r) (ref r) (query r))
              (is_tag_selected r)) as [Hsub Hlen].
  destruct (filter_by_tags r); [|done]. split; [done|]. intros _.
  split; [done|]. intros Hnil. rewrite Hnil.
  by destruct (get_query E (src r) (ref r) (query r)).
Qed.

Lemma select_tagged_all (cur_idx : list Z) (mask : list Flag) :
  Forall (fun flag => truthy flag = true) mask ->
  select_tagged cur_idx mask = take (length mask) cur_idx.
Proof.
  intros Hall. revert cur_idx.
  induction Hall as [|flag flags Hflag _ IH]; intros [|idx cur_idx]; try done.
  cbn [select_tagged length take]. by rewrite Hflag, IH.
Qed.

(** X17. A mask whose entries are all truthy keeps the first
    [len(is_tag_selected)] candidates: all of them when the mask is at
    least as long as the query result, and only a prefix when it is
    shorter. *)
Theorem all_truthy_mask_keeps_prefix r :
  filter_by_tags r = true ->
  Forall (fun flag => truthy flag = true) (is_tag_selected r) ->
  candidates E r
  = take (length (is_tag_selected r)) (get_query E (src r) (ref r) (query r)).
Proof.
  intros Hon Hall. unfold candidates, get_filter_by_tags. rewrite Hon.
  by apply select_tagged_all.
Qed.

End PageViewMore.

(** ** Slicing the page out of the parallel sources *)

Lemma mapM_Ok_Forall2 {A B} (f : A -> Result B) (P : A -> B -> Prop) (l : list A) :
  Forall (fun x => exists y, f x = Ok y /\ P x y) l ->
  exists ys, mapM f l = Ok ys /\ Forall2 P l ys.
Proof.
  induction 1 as [|x l (y & Hy & HP) _ (ys & Hys & Hall)].
  - exists []. split; [reflexivity | constructor].
  - exists (y :: ys). cbn. rewrite Hy. cbn. rewrite Hys. split; [reflexivity|].
    by constructor.
Qed.

Lemma mapM_Ok_inv {A B} (f : A -> Result B) (l : list A) (ys : list B) :
  mapM f l = Ok ys -> Forall2 (fun x y => f x = Ok y) l ys.
Proof.
  revert ys. induction l as [|x l IH]; intros ys; cbn.
  - intros [= <-]. constructor.
  - destruct (f x) as [y|e] eqn:Hy; cbn; [|done].
    destruct (mapM f l) as [ys'|e]; cbn; [|done]. intros [= <-].
    constructor; [done | by apply IH].
Qed.

Lemma select_models_inv pairs cur_idx acc m :
  select_models pairs cur_idx acc = Ok m ->
  (forall n, is_Some (m !! n) <-> n ∈ pairs.*1 \/ is_Some (acc !! n))
  /\ (forall n sl, m !! n = Some sl ->
        acc !! n = Some sl
        \/ exists t, (n, t) ∈ pairs /\ _select t cur_idx = Ok sl).
Proof.
  revert acc. induction pairs as [|[n0 t0] pairs IH]; intros acc; cbn [select_models].
  - intros [= <-]. split.
    + intros n. cbn. rewrite elem_of_nil. tauto.
    + intros n sl Hn. by left.
  - destruct (_select t0 cur_idx) as [hyp|e] eqn:Hsel; cbn; [|done].
    intros Hrest. destruct (IH _ Hrest) as [Hkeys Hvals]. split.
    + intros n. rewrite Hkeys. cbn. rewrite elem_of_cons.
      destruct (decide (n0 = n)) as [->|Hne].
      * rewrite lookup_insert_eq. split; [intros _; by left; left|eauto].
      * rewrite lookup_insert_ne by done. split; [tauto|].
        intros [[?|?]|?]; [congruence|tauto|tauto].
    + intros n sl Hn. destruct (Hvals n sl Hn) as [Hacc|(t & Ht & Hsl)].
      * destruct (decide (n0 = n)) as [->|Hne].
        -- rewrite lookup_insert_eq in Hacc. injection Hacc as <-.
           right. exists t0. split; [left | done].
        -- rewrite lookup_insert_ne in Hacc by done. by left.
      * right. exists t. split; [by right | done].
Qed.

Lemma select_models_Ok pairs cur_idx acc :
  Forall (fun p : string * list string => exists sl, _select p.2 cur_idx = Ok sl) pairs ->
  exists m, select_models pairs cur_idx acc = Ok m.
Proof.
  intros Hall. revert acc.
  induction Hall as [|[n0 t0] pairs (sl & Hsl) _ IH]; intros acc.
  - by eexists.
  - cbn [select_models]. cbn in Hsl. rewrite Hsl. cbn. apply IH.
Qed.

Lemma _select_length_le {A} (xs : list A) (indices : list Z) (ys : list A) :
  _select xs indices = Ok ys -> (length ys <= length indices)%nat.
Proof.
  revert ys. induction indices as [|i rest IH]; intros ys; cbn [_select].
  - by intros [= <-].
  - destruct (i <? py_len xs).
    + destruct (py_getitem xs i) as [x|e]; cbn; [|done].
      destruct (_select xs rest) as [ys'|e]; cbn; [|done]. intros [= <-].
      specialize (IH ys' eq_refl). simpl. lia.
    + intros Hrest. specialize (IH ys Hrest). simpl. lia.
Qed.

Lemma get_page_data_inv src ref hypo cur_idx slices :
  get_page_data src ref hypo cur_idx = Ok slices ->
  (if has_text src
   then exists st, _select (main_text src) cur_idx = Ok st
                   /\ cur_src_text slices = Some st
   else cur_src_text slices = None)
  /\ mapM (fun t => _select t cur_idx) (text ref) = Ok (cur_ref slices)
  /\ select_models (zip (text_names hypo) (text hypo)) cur_idx ∅
     = Ok (cur_hypo slices).
Proof.
  unfold get_page_data. destruct (has_text src).
  - destruct (_select (main_text src) cur_idx) as [st|e]; cbn; [|done].
    destruct (mapM _ (text ref)) as [rs|e]; cbn; [|done].
    destruct (select_models _ _ _) as [m|e]; cbn; [|done].
    intros [= <-]. cbn. eauto.
  - cbn. destruct (mapM _ (text ref)) as [rs|e]; cbn; [|done].
    destruct (select_models _ _ _) as [m|e]; cbn; [|done].
    intros [= <-]. cbn. eauto.
Qed.

Lemma get_page_data_Ok src ref hypo cur_idx :
  (has_text src = true -> exists st, _select (main_text src) cur_idx = Ok st) ->
  Forall (fun t => exists sl, _select t cur_idx = Ok sl) (text ref) ->
  Forall (fun p : string * list string => exists sl, _select p.2 cur_idx = Ok sl)
         (zip (text_names hypo) (text hypo)) ->
  exists slices, get_page_data src ref hypo cur_idx = Ok slices.
Proof.
  intros Hsrc Href Hhypo. unfold get_page_data.
  destruct (mapM_Ok_Forall2 (fun t => _select t cur_idx) (fun _ _ => True) (text ref))
    as (rs & -> & _).
  { eapply Forall_impl; [exact Href|]. intros t (sl & ->). eauto. }
  destruct (select_models_Ok _ cur_idx ∅ Hhypo) as (m & ->).
  destruct (has_text src).
  - destruct Hsrc as (st & ->); [done|]. by eexists.
  - by eexists.
Qed.

Lemma nonneg_select_Ok {A} (cur_idx : list Z) (t : list A) :
  Forall (fun i => 0 <= i) cur_idx -> exists sl, _select t cur_idx = Ok sl.
Proof. intros Hnn. rewrite _select_nonneg_omap by done. eauto. Qed.


Lemma page_data_read_at src ref hypo (cur_idx : list Z) :
  (has_text src = true -> in_bounds (main_text src) cur_idx) ->
  Forall (fun t => in_bounds t cur_idx) (text ref) ->
  Forall (fun p : string * list string => in_bounds p.2 cur_idx)
         (zip (text_names hypo) (text hypo)) ->
  exists slices,
    get_page_data src ref hypo cur_idx = Ok slices
    /\ (forall st, cur_src_text slices = Some st ->
                   read_at (main_text src) cur_idx st)
    /\ Forall2 (fun t sl => read_at t cur_idx sl) (text ref) (cur_ref slices)
    /\ (forall n sl, cur_hypo slices !! n = Some sl ->
          exists t, (n, t) ∈ zip (text_names hypo) (text hypo)
                    /\ read_at t cur_idx sl).
Proof.
  intros Hsrc Href Hhypo.
  destruct (get_page_data_Ok src ref hypo cur_idx) as (slices & Hok).
  { intros Ht. destruct (in_bounds_read_at _ _ (Hsrc Ht)) as (st & ? & _). eauto. }
  { eapply Forall_impl; [exact Href|]. intros t Hb.
    destruct (in_bounds_read_at _ _ Hb) as (sl & ? & _). eauto. }
  { eapply Forall_impl; [exact Hhypo|]. intros p Hb.
    destruct (in_bounds_read_at _ _ Hb) as (sl & ? & _). eauto. }
  exists slices. split; [done|].
  apply get_page_data_inv in Hok as (Hst & Hrs & Hm).
  apply mapM_Ok_inv in Hrs. apply select_models_inv in Hm as [_ Hvals].
  repeat split.
  - intros st Hsome. destruct (has_text src); [|congruence].
    destruct Hst as (st' & Hsel & Heq). simplify_eq.
    destruct (in_bounds_read_at _ _ (Hsrc eq_refl)) as (st'' & Hsel' & Hread).
    congruence.
  - clear -Hrs Href. induction Hrs as [|t sl ts sls Hsl _ IH]; [constructor|].
    apply Forall_cons in Href as [Hb Href]. constructor; [|by apply IH].
    destruct (in_bounds_read_at _ _ Hb) as (sl' & Hsel' & Hread). congruence.
  - intros n sl Hn. destruct (Hvals n sl Hn) as [Hemp|(t & Ht & Hsl)].
    { by rewrite lookup_empty in Hemp. }
    exists t. split; [done|].
    pose proof (proj1 (Forall_forall _ _) Hhypo _ Ht) as Hb. cbn in Hb.
    destruct (in_bounds_read_at _ _ Hb) as (sl' & Hsel' & Hread). congruence.
Qed.

(** X20. When every page index is a position of every channel, the slices
    stay aligned: each reference slice, each model's slice and the source
    slice hold, at position [k], the item of their channel at index
    [cur_idx[k]]. *)
Theorem page_data_aligned src ref hypo (cur_idx : list Z) :
  (has_text src = true -> in_bounds (main_text src) cur_idx) ->
  Forall (fun t => in_bounds t cur_idx) (text ref) ->
  Forall (fun p : string * list string => in_bounds p.2 cur_idx)
         (zip (text_names hypo) (text hypo)) ->
  exists slices,
    get_page_data src ref hypo cur_idx = Ok slices
    /\ (forall st, cur_src_text slices = Some st ->
                   read_at (main_text src) cur_idx st)
    /\ Forall2 (fun t sl => read_at t cur_idx sl) (text ref) (cur_ref slices)
    /\ (forall n sl, cur_hypo slices !! n = Some sl ->
          exists t, (n, t) ∈ zip (text_names hypo) (text hypo)
                    /\ read_at t cur_idx sl).
Proof. apply page_data_read_at. Qed.

Section PageAssembly.
Context {Score Rng Flag : Type} `{!Truthy Flag}.
Variable E : Env Score Rng.
Implicit Types (w : World Rng) (r : Request Flag).

Lemma get_page_elements r w page w' :
  sorters_permute E ->
  get E r w = Ok (page, w') ->
  forall i, i ∈ cur_idx page -> i ∈ candidates E r.
Proof.
  intros HE Hget i Hi.
  destruct (get_page_within_sorted E _ _ _ _ Hget) as (s & sorted & Hsort & Hsub).
  apply get_sorting_permutes in Hsort; [|done].
  rewrite <- Hsort. eapply elem_of_submseteq; [done|]. by apply sublist_submseteq.
Qed.

(** X21. If every candidate is a position of every channel (the corpus is
    parallel) and the sorters permute their input, then every slice cut for
    the page a request returns has exactly [n_cur_samples] entries: the
    source text, each reference channel and each model's hypotheses. *)
Theorem page_slices_have_page_length r w page w' :
  sorters_permute E ->
  get E r w = Ok (page, w') ->
  (has_text (src r) = true -> in_bounds (main_text (src r)) (candidates E r)) ->
  Forall (fun t => in_bounds t (candidates E r)) (text (ref r)) ->
  Forall (fun p : string * list string => in_bounds p.2 (candidates E r))
         (zip (text_names (hypo r)) (text (hypo r))) ->
  exists slices,
    get_page_data (src r) (ref r) (hypo r) (cur_idx page) = Ok slices
    /\ (forall st, cur_src_text slices = Some st -> py_len st = n_cur_samples page)
    /\ Forall (fun sl => py_len sl = n_cur_samples page) (cur_ref slices)
    /\ map_Forall (fun _ sl => py_len sl = n_cur_samples page) (cur_hypo slices).
Proof.
  intros HE Hget Hsrc Href Hhypo.
  pose proof (get_page_elements _ _ _ _ HE Hget) as Hin.
  assert (Hshrink : forall (t : list string),
             in_bounds t (candidates E r) -> in_bounds t (cur_idx page)).
  { intros t Hb. apply Forall_forall. intros i Hi.
    by apply (proj1 (Forall_forall _ _) Hb), Hin. }
  apply get_Ok_inv in Hget as (_ & _ & _ & _ & _ & _ & _ & Hn & _).
  destruct (page_data_read_at (src r) (ref r) (hypo r) (cur_idx page))
    as (slices & Hok & Hst & Hrs & Hm).
  { intros Ht. by apply Hshrink, Hsrc. }
  { eapply Forall_impl; [exact Href|]. intros t. apply Hshrink. }
  { eapply Forall_impl; [exact Hhypo|]. intros p. apply Hshrink. }
  exists slices. split; [done|]. rewrite Hn. unfold py_len. repeat split.
  - intros st Hsome. apply Hst in Hsome. by rewrite (Forall2_length _ _ _ Hsome).
  - eapply Forall2_Forall_r; [exact Hrs|]. apply Forall_forall.
    intros t _ sl Hread. by rewrite (Forall2_length _ _ _ Hread).
  - intros n sl Hsl. destruct (Hm n sl Hsl) as (t & _ & Hread).
    by rewrite (Forall2_length _ _ _ Hread).
Qed.

End PageAssembly.

(** X22. The tag slice is guarded by the truthiness of [tags]: with no tags
    ([None] or an empty list) it is empty whatever the indices, even
    negative ones; on non-negative indices it is in every case the
    in-range selection from the tags. *)
Theorem cur_tags_guarded {T} (tags : option (list T)) (cur_idx : list Z) :
  (tags = None \/ tags = Some [] -> get_cur_tags tags cur_idx = Ok [])
  /\ (Forall (fun i => 0 <= i) cur_idx ->
      get_cur_tags tags cur_idx
      = Ok (omap (fun i => default [] tags !! Z.to_nat i) cur_idx)).
Proof.
  split.
  - by intros [-> | ->].
  - intros Hnn. destruct tags as [[|t ts]|]; cbn [get_cur_tags default].
    + by rewrite omap_all_None.
    + by apply _select_nonneg_omap.
    + by rewrite omap_all_None.
Qed.

Example cur_tags_guard_matters :
  get_cur_tags (Some (@nil string)) [-1] = Ok []
  /\ _select (@nil string) [-1] = Raise IndexError.
Proof. split; reflexivity. Qed.

(** ** Rendering *)

Lemma get_page_data_channels src ref hypo cur_idx slices :
  get_page_data src ref hypo cur_idx = Ok slices ->
  length (cur_ref slices) = length (text ref)
  /\ (has_text src = false -> cur_src_text slices = None).
Proof.
  intros (Hsrc & Href & _)%get_page_data_inv. split.
  - apply mapM_Ok_inv in Href. symmetry. by eapply Forall2_length.
  - intros Hno. by rewrite Hno in Hsrc.
Qed.

(** X23. A reference source without any channel cannot be rendered with
    alignment, nor tagged with languages: [cur_ref[0]] raises
    [IndexError].  With alignment disabled and no language tags the raw
    page passes through. *)
Theorem no_reference_channel_breaks_alignment {Src Idx} (V : Visualizers Src Idx)
    src ref hypo (cur_idx : list Z) slices (cur_src : Src) (text_indices : Idx)
    (main_text_idx : Z) :
  text ref = [] ->
  get_page_data src ref hypo cur_idx = Ok slices ->
  get_rendering V false cur_src text_indices main_text_idx slices = Raise IndexError
  /\ get_trg_lang V true slices = Raise IndexError
  /\ get_rendering V true cur_src text_indices main_text_idx slices
     = Ok (cur_src, [], cur_hypo slices)
  /\ get_trg_lang V false slices = Ok None.
Proof.
  intros Hnone Hok. apply get_page_data_channels in Hok as [Hlen _].
  rewrite Hnone in Hlen. apply nil_length_inv in Hlen.
  unfold get_rendering, get_trg_lang. rewrite Hlen. by repeat split.
Qed.

(** X24. With at least one reference channel the rendering and the
    language tags never raise.  There is one language tag per entry of the
    first reference slice; without alignment the three rendered fields are
    the raw slices; and the references are rendered only when the source
    has text. *)
Theorem rendering_with_references {Src Idx} (V : Visualizers Src Idx)
    src ref hypo (cur_idx : list Z) slices (disable_alignment : bool)
    (cur_src : Src) (text_indices : Idx) (main_text_idx : Z) :
  text ref <> [] ->
  get_page_data src ref hypo cur_idx = Ok slices ->
  exists ref0 viz_src viz_ref viz_hypo,
    cur_ref slices !! 0%nat = Some ref0
    /\ get_rendering V disable_alignment cur_src text_indices main_text_idx slices
       = Ok (viz_src, viz_ref, viz_hypo)
    /\ (disable_alignment = true ->
        viz_src = cur_src /\ viz_ref = cur_ref slices /\ viz_hypo = cur_hypo slices)
    /\ (has_text src = false -> viz_ref = cur_ref slices)
    /\ get_trg_lang V true slices
       = Ok (Some (VizSeqLanguageTagger_tag_lang V <$> ref0)).
Proof.
  intros Hsome Hok. apply get_page_data_channels in Hok as [Hlen Hnosrc].
  destruct (cur_ref slices) as [|ref0 refs] eqn:Hrefs.
  { destruct (text ref); [done | discriminate Hlen]. }
  exists ref0. unfold get_rendering, get_trg_lang. rewrite Hrefs.
  destruct disable_alignment.
  - eexists _, _, _. split; [reflexivity|]. split; [reflexivity|].
    split; [done|]. split; [done | reflexivity].
  - eexists _, _, _. split; [reflexivity|]. split; [reflexivity|].
    split; [done|]. split; [|reflexivity].
    intros Hno. cbn. by rewrite (Hnosrc Hno).
Qed.

(** ** The further properties on the sample deployment *)

Lemma get_enum_rows_witness :
  exists row,
    get_enum (Some [PySeq ["a"; "b"]; PyScalar "c"]%string) !! 1%nat = Some row
    /\ head row = Some (inl (Z.of_nat 1))
    /\ row_values row = item_values (PyScalar "c"%string)
    /\ length row = S (length (item_values (PyScalar "c"%string))).
Proof.
  apply (proj2 (proj2 (get_enum_rows [PySeq ["a"; "b"]; PyScalar "c"]%string))
           1%nat (PyScalar "c"%string)).
  reflexivity.
Defined.

Lemma get_page_size_clamped_witness :
  get sample_env (sample_request "a" 0 "bleu" 1000 1 [] false) sample_world
  = get sample_env
      (with_page_sz (sample_request "a" 0 "bleu" 1000 1 [] false) MAX_PAGE_SZ)
      sample_world.
Proof.
  apply (get_page_size_clamped sample_env
           (sample_request "a" 0 "bleu" 1000 1 [] false) sample_world).
  vm_compute. congruence.
Defined.

Lemma page_within_candidates_witness :
  let r := sample_request "a" 1 "bleu" 2 2 [] false in
  let page := {| cur_idx := [0]; n_cur_samples := 1; n_samples := 3;
                 total_examples := 5 |} in
  cur_idx page ⊆+ candidates sample_env r
  /\ (forall i, i ∈ cur_idx page -> i ∈ candidates sample_env r)
  /\ (NoDup (candidates sample_env r) -> NoDup (cur_idx page)).
Proof.
  intros r page.
  apply (page_within_candidates sample_env r sample_world page
           {| rng := 1%nat; score_log := [] |} sample_env_permutes).
  reflexivity.
Defined.


Lemma metric_sort_scores_each_pair_once_witness :
  let w' := {| rng := 0%nat;
               score_log := [{| sc_metric := "bleu"; sc_model := "model" |}] |} in
  rng w' = rng sample_world
  /\ score_log w' =
       score_log sample_world
       ++ ((fun p : string * list string =>
              {| sc_metric := "bleu"; sc_model := p.1 |})
             <$> zip (text_names sample_hypo) (text sample_hypo)).
Proof.
  intros w'.
  apply (metric_sort_scores_each_pair_once sample_env metric "bleu"
           sample_src sample_ref sample_hypo [0; 1; 3] sample_world [3; 1; 0] w');
    [by left | by left | vm_compute; reflexivity].
Defined.

Lemma tag_filter_only_removes_witness :
  let r := sample_request "a" 0 "bleu" 10 1 [] true in
  (length (candidates sample_env r) <= length (is_tag_selected r))%nat
  /\ (is_tag_selected r = [] -> candidates sample_env r = []).
Proof.
  intros r. apply (proj2 (tag_filter_only_removes sample_env r)). reflexivity.
Defined.

Lemma all_truthy_mask_keeps_prefix_witness :
  let r := sample_request "a" 0 "bleu" 10 1 [true; true] true in
  candidates sample_env r
  = take (length (is_tag_selected r))
         (get_query sample_env (src r) (ref r) (query r)).
Proof.
  intros r. apply (all_truthy_mask_keeps_prefix sample_env r);
    [reflexivity | repeat constructor].
Defined.


Lemma page_data_aligned_witness :
  exists slices,
    get_page_data sample_src sample_ref sample_hypo [3; 0] = Ok slices
    /\ (forall st, cur_src_text slices = Some st ->
                   read_at (main_text sample_src) [3; 0] st)
    /\ Forall2 (fun t sl => read_at t [3; 0] sl) (text sample_ref) (cur_ref slices)
    /\ (forall n sl, cur_hypo slices !! n = Some sl ->
          exists t, (n, t) ∈ zip (text_names sample_hypo) (text sample_hypo)
                    /\ read_at t [3; 0] sl).
Proof.
  apply (page_data_aligned sample_src sample_ref sample_hypo [3; 0]);
    [intros _ | ..]; repeat constructor; unfold py_len; simpl; lia.
Defined.

Lemma page_slices_have_page_length_witness :
  let r := sample_request "a" 1 "bleu" 2 2 [] false in
  let page := {| cur_idx := [0]; n_cur_samples := 1; n_samples := 3;
                 total_examples := 5 |} in
  exists slices,
    get_page_data (src r) (ref r) (hypo r) (cur_idx page) = Ok slices
    /\ (forall st, cur_src_text slices = Some st -> py_len st = n_cur_samples page)
    /\ Forall (fun sl => py_len sl = n_cur_samples page) (cur_ref slices)
    /\ map_Forall (fun _ sl => py_len sl = n_cur_samples page) (cur_hypo slices).
Proof.
  intros r page.
  apply (page_slices_have_page_length sample_env r sample_world page
           {| rng := 1%nat; score_log := [] |} sample_env_permutes);
    [reflexivity | intros _ | ..]; repeat constructor; unfold py_len; simpl; lia.
Defined.

Lemma cur_tags_guarded_witness :
  get_cur_tags (Some ["t0"; "t1"]%string) [1; 5]
  = Ok (omap (fun i => default [] (Some ["t0"; "t1"]%string) !! Z.to_nat i) [1; 5]).
Proof.
  apply (proj2 (cur_tags_guarded (Some ["t0"; "t1"]%string) [1; 5])).
  repeat constructor; lia.
Defined.

Lemma no_reference_channel_breaks_alignment_witness :
  exists slices,
    get_page_data sample_src sample_no_text sample_hypo [0] = Ok slices
    /\ get_rendering sample_visualizers false [["a0"%string]] tt 0 slices
       = Raise IndexError
    /\ get_trg_lang sample_visualizers true slices = Raise IndexError
    /\ get_rendering sample_visualizers true [["a0"%string]] tt 0 slices
       = Ok ([["a0"%string]], [], cur_hypo slices)
    /\ get_trg_lang sample_visualizers false slices = Ok None.
Proof.
  eexists. split; [reflexivity|].
  apply (no_reference_channel_breaks_alignment sample_visualizers
           sample_src sample_no_text sample_hypo [0]); reflexivity.
Defined.

Lemma rendering_with_references_witness :
  exists slices ref0 viz_src viz_ref viz_hypo,
    get_page_data sample_no_text sample_ref sample_hypo [0; 2] = Ok slices
    /\ cur_ref slices !! 0%nat = Some ref0
    /\ get_rendering sample_visualizers false [["a0"%string]] tt 0 slices
       = Ok (viz_src, viz_ref, viz_hypo)
    /\ (false = true ->
        viz_src = [["a0"%string]] /\ viz_ref = cur_ref slices
        /\ viz_hypo = cur_hypo slices)
    /\ (has_text sample_no_text = false -> viz_ref = cur_ref slices)
    /\ get_trg_lang sample_visualizers true slices
       = Ok (Some (VizSeqLanguageTagger_tag_lang sample_visualizers <$> ref0)).
Proof.
  eexists.
  assert (Hok : get_page_data sample_no_text sample_ref sample_hypo [0; 2]
                = Ok _) by reflexivity.
  destruct (rendering_with_references sample_visualizers
              sample_no_text sample_ref sample_hypo [0; 2] _ false
              [["a0"%string]] tt 0 ltac:(discriminate) Hok)
    as (ref0 & viz_src & viz_ref & viz_hypo & H).
  exists ref0, viz_src, viz_ref, viz_hypo. split; [exact Hok | exact H].
Defined.

(** ** Page lengths, selector values, unfiltered pages *)

(** X25. The exact length of a page: none without candidates; otherwise
    [min(page_sz, n - page_sz * (page_no - 1))] while the page starts inside
    the data, and one beyond it.  A page is never empty when there is a
    candidate. *)
Theorem page_length_exact (l : list Z) (ps pn : Z) :
  0 < ps -> 0 < pn ->
  exists page,
    get_pagination l ps pn = Ok page
    /\ py_len page
       = (if decide (l = []) then 0
          else Z.max 1 (Z.min ps (py_len l - ps * (pn - 1)))).
Proof.
  intros Hps Hpn. rewrite get_pagination_take_drop by done.
  eexists. split; [reflexivity|].
  assert (0 <= ps * (pn - 1)) by nia.
  unfold py_len. rewrite length_take, length_drop.
  destruct (decide (l = [])) as [->|Hne]; [simpl; lia|].
  assert (0 < length l)%nat by (destruct l; [done | simpl; lia]). lia.
Qed.

Lemma page_length_exact_witness :
  exists page,
    get_pagination [3; 1; 4; 1; 5] 2 3 = Ok page
    /\ py_len page
       = (if decide ([3; 1; 4; 1; 5] = []) then 0
          else Z.max 1 (Z.min 2 (py_len [3; 1; 4; 1; 5] - 2 * (3 - 1)))).
Proof. apply (page_length_exact [3; 1; 4; 1; 5] 2 3); lia. Defined.

Section SelectorValues.
Context {Score Rng : Type}.
Variable E : Env Score Rng.

(** X26. When the enum members have distinct values, the lookup of line 97
    inverts [value]: the value of a member resolves to that member, and a
    selector resolves to a member only if it is its value. *)
Theorem sorting_of_value_inverts_value :
  (forall a b, value E a = value E b -> a = b) ->
  forall s v, sorting_of_value E v = Some s <-> value E s = v.
Proof.
  intros Hinj s v. split; [apply sorting_of_value_Some|]. intros <-.
  unfold sorting_of_value.
  rewrite (list_filter_iff (fun e => value E e = value E s) (fun e => e = s));
    cycle 1.
  { intros e. split; [apply Hinj | by intros ->]. }
  by destruct s.
Qed.

End SelectorValues.

Lemma sorting_of_value_inverts_value_witness :
  sorting_of_value sample_env 6 = Some metric <-> value sample_env metric = 6.
Proof.
  apply (sorting_of_value_inverts_value sample_env).
  intros [] []; vm_compute; congruence.
Defined.

(** X27. On the identity candidates of a channel, selecting the channel at
    a slice of the indices is slicing the channel: paging the indices and
    then reading the channel gives the same page of the channel. *)
Theorem select_slice_of_range {A} (t : list A) (start stop : Z) :
  _select t (py_slice (py_range (length t)) start stop)
  = Ok (py_slice t start stop).
Proof.
  assert (Hb : in_bounds t (py_range (length t))).
  { unfold in_bounds, py_range. apply Forall_fmap, Forall_forall.
    intros k Hk%elem_of_seq. cbn. unfold py_len. lia. }
  assert (Hread : read_at t (py_range (length t)) t).
  { destruct (in_bounds_read_at t _ Hb) as (ys & Hsel & Hread).
    rewrite _select_nonneg_omap, omap_lookup_range, firstn_all in Hsel
      by (by eapply in_bounds_nonneg).
    by injection Hsel as <-. }
  apply select_read_at.
  - unfold py_slice, py_range. apply Forall_forall. intros i Hi.
    apply elem_of_take in Hi as (k & Hk & _). rewrite lookup_drop in Hk.
    apply list_lookup_fmap_Some in Hk as (j & -> & _). lia.
  - unfold py_slice, py_len, py_range. rewrite length_fmap, length_seq.
    by apply Forall2_take, Forall2_drop.
Qed.

(** * The whole of [get] *)








Section WholeGetFacts.
Context {Score Rng Flag Src Idx DictViz : Type} `{!Truthy Flag}.
Variable E : Env Score Rng.
Variable D : Display Score Src Idx DictViz.
Implicit Types (w : World Rng) (a : GetArgs Flag).

#[local] Abbreviation metrics_of a :=
  (match arg_metrics a with None => [] | Some metrics => metrics end).

(** *** What the second half can raise *)








(** *** The stages of the whole function *)

Lemma call_candidates_cases a :
  (arg_filter_by_tags a = true /\ arg_is_tag_selected a = None
   /\ call_candidates E a = Raise TypeError)
  \/ (~ (arg_filter_by_tags a = true /\ arg_is_tag_selected a = None)
      /\ call_candidates E a
         = Ok (candidates E (index_request a (default [] (arg_is_tag_selected a))))).
Proof.
  unfold call_candidates, filter_by_mask, candidates, get_filter_by_tags,
    index_request. cbn.
  destruct (arg_filter_by_tags a); [|right; split; [by intros [? _] | done]].
  destruct (arg_is_tag_selected a) as [mask|].
  - right. split; [by intros [_ ?] | done].
  - by left.
Qed.

Lemma whole_get_unfold a w :
  VizSeqDataPageView_get E D a w =
    if (0 <? arg_page_no a) && (0 <? arg_page_sz a) then
      match call_candidates E a with
      | Raise e => Raise e
      | Ok cand =>
          match sorting_of_value E (arg_sorting a) with
          | None => Raise AssertionError
          | Some s =>
              match get_sorting E s (arg_sorting_metric a)
                      (arg_src a) (arg_ref a) (arg_hypo a) cand w with
              | Raise e => Raise e
              | Ok (sorted, w') =>
                  match get_pagination sorted
                          (Z.min (arg_page_sz a) MAX_PAGE_SZ) (arg_page_no a) with
                  | Raise e => Raise e
                  | Ok idx =>
                      (fun page => (page, w'))
                        <$> get_page E D a (metrics_of a) (py_len cand) idx
                  end
              end
          end
      end
    else Raise AssertionError.
Proof.
  unfold VizSeqDataPageView_get, call_candidates, M_bind at 1, M_lift at 1.
  destruct ((0 <? arg_page_no a) && (0 <? arg_page_sz a)); cbn; [|done].
  unfold M_bind at 1, M_lift at 1.
  destruct (filter_by_mask _ _ _) as [cand|e]; [|done].
  destruct (sorting_of_value E (arg_sorting a)) as [s|]; [|done].
  unfold M_bind, M_lift.
  destruct (get_sorting _ _ _ _ _ _ _ _) as [[sorted w']|e]; [|done].
  destruct (get_pagination _ _ _) as [idx|e]; [|done].
  by destruct (get_page _ _ _ _ _ _).
Qed.

(** A page the whole function returns carries the page of the index
    pipeline, run on the same arguments with the mask as a list. *)
Lemma whole_get_index a w page w' :
  VizSeqDataPageView_get E D a w = Ok (page, w') ->
  get E (index_request a (default [] (arg_is_tag_selected a))) w
  = Ok (page_index page, w').
Proof.
  rewrite whole_get_unfold. intros Hrun.
  destruct (Z.ltb_spec 0 (arg_page_no a)) as [Hpn|?]; [|done].
  destruct (Z.ltb_spec 0 (arg_page_sz a)) as [Hps|?]; [|done].
  cbn in Hrun.
  destruct (call_candidates_cases a) as [(_ & _ & Hc)|[_ Hc]];
    rewrite Hc in Hrun; [done|].
  destruct (sorting_of_value E (arg_sorting a)) as [s|] eqn:Hs; [|done].
  set (r := index_request a (default [] (arg_is_tag_selected a))) in *.
  rewrite (get_unfold E r w s Hps Hpn Hs). cbn [r index_request src ref hypo
    sorting_metric page_sz page_no] in *.
  destruct (get_sorting _ _ _ _ _ _ _ _) as [[sorted w1]|e]; [|done].
  destruct (get_pagination _ _ _) as [idx|e]; [|done].
  unfold get_page in Hrun.
  destruct (get_page_data _ _ _ _) as [slices|e]; [|done]. cbn in Hrun.
  destruct (get_sent_scores _ _ _ _ _ _) as [css|e]; [|done]. cbn in Hrun.
  destruct (get_rendering _ _ _ _ _ _) as [rendered|e]; [|done]. cbn in Hrun.
  destruct (get_viz_sent_scores _ _ _ _ _) as [vss|e]; [|done]. cbn in Hrun.
  destruct (get_trg_lang _ _ _) as [tl|e]; [|done]. cbn in Hrun.
  destruct (get_cur_tags _ _) as [ct|e]; [|done]. cbn in Hrun.
  by injection Hrun as <- <-.
Qed.

(** The bound on the page count, for a page of the whole function. *)
Lemma whole_get_page_count_bounded a w page w' :
  sorters_permute E ->
  VizSeqDataPageView_get E D a w = Ok (page, w') ->
  0 <= n_cur_samples (page_index page)
       <= Z.min (arg_page_sz a) (n_samples (page_index page)).
Proof.
  intros HE Hrun. apply whole_get_index in Hrun.
  apply get_Ok_inv in Hrun
    as (Hps & Hpn & s & sorted & _ & Hsort & Hpage & -> & -> & _).
  apply get_sorting_permutes in Hsort; [|done].
  cbn [index_request page_sz page_no] in *.
  destruct (get_pagination_length sorted (Z.min (arg_page_sz a) MAX_PAGE_SZ)
              (arg_page_no a)) as (pg & Hpg & Hlen); [unfold MAX_PAGE_SZ; lia | done |].
  rewrite Hpage in Hpg. injection Hpg as <-.
  unfold py_len in *. rewrite <- (Permutation_length Hsort). lia.
Qed.


(** *** When the second half returns *)

Lemma score_hypotheses_Ok s items cur_ref acc :
  items = [] \/ s ∈ get_scorer_ids E ->
  exists per_model, score_hypotheses E D s items cur_ref acc = Ok per_model.
Proof.
  intros [-> | Hreg]; [by eexists|]. revert acc.
  induction items as [|[m hh] items IH]; intros acc; [by eexists|].
  cbn [score_hypotheses]. unfold resolve_scorer.
  rewrite bool_decide_eq_true_2 by done. cbn. apply IH.
Qed.

Lemma get_sent_scores_Ok metrics cur_hypo cur_ref acc :
  cur_hypo = ∅ \/ Forall (fun s => s ∈ get_scorer_ids E) metrics ->
  exists css, get_sent_scores E D metrics cur_hypo cur_ref acc = Ok css.
Proof.
  intros Hok. revert acc.
  induction metrics as [|s metrics IH]; intros acc; [by eexists|].
  cbn [get_sent_scores].
  destruct (score_hypotheses_Ok s (map_to_list cur_hypo) cur_ref ∅) as (pm & ->).
  { destruct Hok as [-> | Hall]; [left; apply map_to_list_empty|].
    right. by apply Forall_cons in Hall as [? _]. }
  cbn. apply IH. destruct Hok as [?|Hall]; [by left|].
  right. by apply Forall_cons in Hall as [_ ?].
Qed.

Lemma get_viz_sent_scores_Ok css metrics models (n : nat) :
  metrics = [] \/ n = 0%nat ->
  exists vss,
    get_viz_sent_scores D css metrics models n = Ok vss /\ length vss = n.
Proof.
  intros [-> | ->].
  - exists ((fun _ => ∅) <$> py_range n). split.
    + unfold get_viz_sent_scores. by apply mapM_Ok.
    + unfold py_range. by rewrite !length_fmap, length_seq.
  - by exists [].
Qed.

Lemma select_models_nil_pairs cur_idx acc m :
  select_models [] cur_idx acc = Ok m -> m = acc.
Proof. by intros [= <-]. Qed.

Lemma get_page_Ok a metrics n_samples cur_idx :
  Forall (fun i => 0 <= i) cur_idx ->
  (zip (text_names (arg_hypo a)) (text (arg_hypo a)) = []
   \/ Forall (fun s => s ∈ get_scorer_ids E) metrics) ->
  (metrics = [] \/ cur_idx = []) ->
  (text (arg_ref a) <> []
   \/ (arg_disable_alignment a = true /\ arg_need_lang_tags a = false)) ->
  exists page,
    get_page E D a metrics n_samples cur_idx = Ok page
    /\ page_index page =
         {| cur_idx := cur_idx; n_cur_samples := py_len cur_idx;
            n_samples := n_samples;
            total_examples := Z.of_nat (len (arg_src a)) |}
    /\ length (viz_sent_scores page) = length cur_idx
    /\ (length (cur_tags page) <= length cur_idx)%nat.
Proof.
  intros Hnn Hmetrics Hviz Href. unfold get_page.
  destruct (get_page_data_Ok (arg_src a) (arg_ref a) (arg_hypo a) cur_idx)
    as (slices & Hslices).
  { intros _. by apply nonneg_select_Ok. }
  { apply Forall_forall. intros t _. by apply nonneg_select_Ok. }
  { apply Forall_forall. intros p _. by apply nonneg_select_Ok. }
  rewrite Hslices. cbn.
  pose proof (get_page_data_channels _ _ _ _ _ Hslices) as [Hlen _].
  apply get_page_data_inv in Hslices as (_ & _ & Hmodels).
  destruct (get_sent_scores_Ok metrics (cur_hypo slices) (cur_ref slices) ∅)
    as (css & ->).
  { destruct Hmetrics as [Hzip|?]; [left|by right].
    rewrite Hzip in Hmodels. by apply select_models_nil_pairs in Hmodels. }
  cbn.
  assert (Hrender : exists rendered,
             get_rendering (visualizers D) (arg_disable_alignment a)
               (cached D (arg_src a) cur_idx) (text_indices D (arg_src a))
               (main_text_idx D (arg_src a)) slices = Ok rendered).
  { unfold get_rendering. destruct Href as [Hsome|[-> _]]; [|by eexists].
    destruct (cur_ref slices) as [|ref0 refs].
    { destruct (text (arg_ref a)); [done | discriminate Hlen]. }
    destruct (arg_disable_alignment a); by eexists. }
  destruct Hrender as (rendered & ->). cbn.
  destruct (get_viz_sent_scores_Ok css metrics (text_names (arg_hypo a))
              (length cur_idx)) as (vss & -> & Hvss).
  { destruct Hviz as [?| ->]; [by left | by right]. }
  cbn.
  assert (Hlang : exists tl,
             get_trg_lang (visualizers D) (arg_need_lang_tags a) slices = Ok tl).
  { unfold get_trg_lang. destruct Href as [Hsome|[_ ->]]; [|by eexists].
    destruct (cur_ref slices) as [|ref0 refs].
    { destruct (text (arg_ref a)); [done | discriminate Hlen]. }
    destruct (arg_need_lang_tags a); by eexists. }
  destruct Hlang as (tl & ->). cbn.
  assert (Htags : exists ct,
             get_cur_tags (arg_tags a) cur_idx = Ok ct
             /\ (length ct <= length cur_idx)%nat).
  { unfold get_cur_tags. destruct (arg_tags a) as [[|t ts]|];
      [exists []; split; [done | simpl; lia]| |exists []; split; [done | simpl; lia]].
    destruct (nonneg_select_Ok cur_idx (t :: ts) Hnn) as (ct & Hct).
    exists ct. split; [done | by eapply _select_length_le]. }
  destruct Htags as (ct & -> & Hct). cbn.
  eexists. split; [reflexivity|]. by cbn.
Qed.


(** *** What the specification states about the whole function *)




(** *** Further properties of the whole function *)

(** X13. Sorting by source length or source alphabet on a source without
    text is silently skipped: the call behaves exactly as the same call
    with the selector of [none], with the same result, the same effects
    and the same errors. *)
Theorem source_sort_without_text_is_skipped a w s v_none :
  sorting_of_value E (arg_sorting a) = Some s ->
  s = src_len \/ s = src_alphabetical ->
  has_text (arg_src a) = false ->
  sorting_of_value E v_none = Some none ->
  VizSeqDataPageView_get E D a w
  = VizSeqDataPageView_get E D (with_sorting a v_none) w.
Proof.
  intros Hs Hsrc Hno Hnone. rewrite !whole_get_unfold.
  unfold call_candidates, with_sorting. cbn. rewrite Hs, Hnone.
  destruct ((0 <? arg_page_no a) && (0 <? arg_page_sz a)); [|done].
  destruct (filter_by_mask _ _ _) as [cand|e]; [|done].
  rewrite (get_sorting_source_without_text E s _ _ _ _ _ _ Hsrc Hno).
  cbn [get_sorting]. unfold M_ret.
  destruct (get_pagination _ _ _) as [idx|e]; [|done].
  unfold get_page. by cbn.
Qed.

Lemma get_pagination_sublist (l : list Z) (ps pn : Z) (idx : list Z) :
  0 < ps -> 0 < pn -> get_pagination l ps pn = Ok idx -> idx `sublist_of` l.
Proof.
  intros Hps Hpn. rewrite get_pagination_take_drop by done. intros [= <-].
  etrans; [apply sublist_take | apply sublist_drop].
Qed.

(** X18. A call returns a page when its page size and page number are
    positive, the tag filter can run and leaves non-negative candidates, the
    selector resolves to a member other than metric and metric-diff, no
    display metric is asked for, and the reference has a channel or
    alignment and language tags are both off (with sorters that permute
    their input).  The page reports the corpus size and the number of
    candidates, and one score entry per example. *)
Theorem valid_request_returns a w s cand :
  sorters_permute E ->
  0 < arg_page_sz a -> 0 < arg_page_no a ->
  call_candidates E a = Ok cand ->
  Forall (fun i => 0 <= i) cand ->
  sorting_of_value E (arg_sorting a) = Some s ->
  s <> metric -> s <> metric_diff ->
  arg_metrics a = None \/ arg_metrics a = Some [] ->
  (text (arg_ref a) <> []
   \/ (arg_disable_alignment a = true /\ arg_need_lang_tags a = false)) ->
  exists page w',
    VizSeqDataPageView_get E D a w = Ok (page, w')
    /\ total_examples (page_index page) = Z.of_nat (len (arg_src a))
    /\ n_samples (page_index page) = py_len cand
    /\ n_cur_samples (page_index page) = py_len (cur_idx (page_index page))
    /\ length (viz_sent_scores page) = length (cur_idx (page_index page)).
Proof.
  intros HE Hps Hpn Hcand Hnn Hs Hm Hd Hmetrics Href.
  rewrite whole_get_unfold, Hcand, Hs.
  destruct (Z.ltb_spec 0 (arg_page_no a)) as [_|?]; [|lia].
  destruct (Z.ltb_spec 0 (arg_page_sz a)) as [_|?]; [|lia]. cbn [andb].
  destruct (get_sorting_returns E s (arg_sorting_metric a) (arg_src a)
              (arg_ref a) (arg_hypo a) cand w Hm Hd) as (sorted & w' & Hsort).
  rewrite Hsort. apply get_sorting_permutes in Hsort; [|done].
  destruct (get_pagination_length sorted (Z.min (arg_page_sz a) MAX_PAGE_SZ)
              (arg_page_no a)) as (idx & Hidx & _); [unfold MAX_PAGE_SZ; lia | done |].
  rewrite Hidx.
  assert (Hidx_nn : Forall (fun i => 0 <= i) idx).
  { apply get_pagination_sublist in Hidx; [|unfold MAX_PAGE_SZ; lia | done].
    apply Forall_forall. intros i Hi.
    apply (proj1 (Forall_forall _ _) Hnn). rewrite <- Hsort.
    eapply elem_of_submseteq; [done | by apply sublist_submseteq]. }
  assert (Hnil : metrics_of a = []) by (by destruct Hmetrics as [-> | ->]).
  destruct (get_page_Ok a (metrics_of a) (py_len cand) idx)
    as (page & -> & Hindex & Hvss & _);
    [done | right; rewrite Hnil; constructor | by left | done |].
  exists page, w'. split; [done|]. by rewrite Hindex.
Qed.

End WholeGetFacts.

(** ** The whole function on the sample deployment *)

Example sample_whole_page :
  let a := sample_call sample_ref "a" 0 "bleu" (Some ["bleu"%string]) false
             (Some [true; false; true]) true in
  (fun r => (cur_idx (page_index r.1), n_cur_samples (page_index r.1),
             n_samples (page_index r.1), cur_ref (page_slices r.1),
             length (viz_sent_scores r.1), trg_lang r.1))
    <$> VizSeqDataPageView_get sample_env sample_display a sample_world
  = Ok ([0; 3], 2, 2, [["r0"; "r3"]%string], 2%nat, None).
Proof. vm_compute. reflexivity. Qed.






Lemma source_sort_without_text_is_skipped_witness :
  let a := {| arg_src := sample_no_text; arg_ref := sample_ref;
              arg_hypo := sample_hypo; arg_page_sz := 2; arg_page_no := 1;
              arg_metrics := None; arg_query := "r"%string; arg_sorting := 4;
              arg_sorting_metric := "bleu"%string; arg_need_lang_tags := false;
              arg_disable_alignment := false; arg_tags := None;
              arg_is_tag_selected := @None (list bool);
              arg_filter_by_tags := false |} in
  VizSeqDataPageView_get sample_env sample_display a sample_world
  = VizSeqDataPageView_get sample_env sample_display (with_sorting a 0) sample_world.
Proof.
  intros a.
  apply (source_sort_without_text_is_skipped sample_env sample_display a
           sample_world src_len 0);
    [reflexivity | by left | reflexivity | reflexivity].
Defined.

Lemma valid_request_returns_witness :
  let a := sample_call sample_ref "a" 3 "bleu" None false None false in
  exists page w',
    VizSeqDataPageView_get sample_env sample_display a sample_world = Ok (page, w')
    /\ total_examples (page_index page) = Z.of_nat (len (arg_src a))
    /\ n_samples (page_index page) = py_len [0; 1; 3]
    /\ n_cur_samples (page_index page) = py_len (cur_idx (page_index page))
    /\ length (viz_sent_scores page) = length (cur_idx (page_index page)).
Proof.
  intros a.
  apply (valid_request_returns sample_env sample_display a sample_world
           ref_alphabetical [0; 1; 3] sample_env_permutes);
    [reflexivity | reflexivity | reflexivity | repeat constructor; lia
    | reflexivity | discriminate | discriminate | by left | left; discriminate].
Defined.
